(** * svutRun: the SystemVerilog unit-test runner

    A shallow embedding of [svutRun.py]: test discovery by file name,
    construction of the Icarus and Verilator command lists, and the
    driver loop that shells the commands out one after another. *)

From Stdlib Require Import ZArith Lia Bool Ascii.
From stdpp Require Import gmap strings list.

Local Open Scope Z_scope.

(** ** Python string primitives *)

Module Py.

(** [bool(s)] for a string: the empty string is falsy. *)
Definition truthy (s : string) : bool :=
  match s with
  | EmptyString => false
  | String _ _ => true
  end.

(** [s[n:]] for a non-negative [n]. *)
Fixpoint drop (n : nat) (s : string) : string :=
  match n, s with
  | O, _ => s
  | S _, EmptyString => EmptyString
  | S n', String _ r => drop n' r
  end.

(** [s[-n:]] for a positive [n]: the last [n] characters, and the whole
    string when it is shorter than [n]. *)
Definition slice_last (n : nat) (s : string) : string :=
  drop (String.length s - n) s.

(** [s.startswith(p)] *)
Definition startswith (s p : string) : bool := String.prefix p s.

(** [s.endswith(suf)] *)
Definition endswith (s suf : string) : bool :=
  (String.length suf <=? String.length s)%nat
  && String.eqb (drop (String.length s - String.length suf) s) suf.

(** [sub in s] *)
Fixpoint contains (sub s : string) : bool :=
  String.prefix sub s
  || match s with
     | EmptyString => false
     | String _ r => contains sub r
     end.

(** [s.split(sep)] for a one-character separator. *)
Fixpoint split (sep : ascii) (s : string) : list string :=
  match s with
  | EmptyString => [EmptyString]
  | String c r =>
      if Ascii.eqb c sep then EmptyString :: split sep r
      else match split sep r with
           | h :: t => String c h :: t
           | [] => [String c EmptyString]
           end
  end.

(** [sep.join(l)] *)
Definition join (sep : string) (l : list string) : string :=
  String.concat sep l.

(** [c.lower()] on the ASCII range; other bytes are left as they are. *)
Definition lower_ascii (c : ascii) : ascii :=
  let n := nat_of_ascii c in
  if ((65 <=? n) && (n <=? 90))%nat then ascii_of_nat (n + 32) else c.

(** [s.lower()] *)
Fixpoint lower (s : string) : string :=
  match s with
  | EmptyString => EmptyString
  | String c r => String (lower_ascii c) (lower r)
  end.

(** [os.path.basename(p)]: what follows the last slash. *)
Fixpoint basename (p : string) : string :=
  match p with
  | EmptyString => EmptyString
  | String c r =>
      if contains "/" r then basename r
      else if Ascii.eqb c "/" then r else p
  end.

(** [l[0]] of a list that [split] returned (never empty). *)
Definition head (l : list string) : string :=
  match l with
  | h :: _ => h
  | [] => EmptyString
  end.

End Py.

(** ** get_defines *)

(** One pass of the loop body of [get_defines]. *)
Definition add_define (simdefs _def : string) : string :=
  if Py.truthy _def then simdefs +:+ "-D" +:+ _def +:+ " " else simdefs.

Definition get_defines (defines : string) : string :=
  let simdefs := "" in
  if negb (Py.truthy defines) then simdefs
  else fold_left add_define (Py.split ";" defines) simdefs.

(** ** The parsed command line *)

(** [ARGS.test] is the string ["all"] by default and a list of file names
    when [-test] is given. *)
Inductive test_arg :=
| AllTests
| Tests (files : list string).

Record Args := mkArgs {
  test : test_arg;
  dotfile : list string;
  simulator : string;
  main : string;
  define : string;
  vpi : string;
  gui : bool;
  dry : bool;
  include : list string
}.

Definition set_test (v : test_arg) (a : Args) : Args :=
  mkArgs v (dotfile a) (simulator a) (main a) (define a) (vpi a)
         (gui a) (dry a) (include a).

Definition set_simulator (v : string) (a : Args) : Args :=
  mkArgs (test a) (dotfile a) v (main a) (define a) (vpi a)
         (gui a) (dry a) (include a).

(** The defaults [argparse] fills in. *)
Definition default_args : Args :=
  mkArgs AllTests ["files.f"] "icarus" "sim_main.cpp" "" "" false false [].

(** ** The operating system, as the program sees it *)

Class Platform (W : Type) := {
  SCRIPTDIR : string;
  getcwd : W -> string;
  listdir : W -> list string;
  isfile : W -> string -> bool;
  filecmp_cmp : W -> string -> string -> bool;
  (** [os.system]: the wait status and the world the command leaves. *)
  os_system : string -> W -> Z * W;
  (** [git describe --tags --abbrev=0], stripped and decoded; [None] when
      the call raises. *)
  git_describe : W -> option string;
  (** [datetime.datetime.now().time().strftime('%H:%M:%S')] *)
  strftime_now : W -> string
}.

(** What the program does that can be seen from outside, in order. *)
Inductive event :=
| Print (s : string)
| PrintCmds (cmds : list string)
| PrintElapsed
| System (cmd : string)
| Timer.

Record state (W : Type) := mkState {
  ARGS : Args;
  world : W;
  trace : list event
}.
Arguments mkState {W}.
Arguments ARGS {W}.
Arguments world {W}.
Arguments trace {W}.

(** ** A state monad with [sys.exit] *)

Inductive outcome (A : Type) :=
| Done (a : A)
| Exit (code : Z).
Arguments Done {A}.
Arguments Exit {A}.

Definition M (W A : Type) : Type := state W -> outcome A * state W.

Definition ret {W A} (a : A) : M W A := fun st => (Done a, st).

Definition bind {W A B} (m : M W A) (k : A -> M W B) : M W B :=
  fun st =>
    match m st with
    | (Done a, st') => k a st'
    | (Exit c, st') => (Exit c, st')
    end.

Notation "x <- m ;; k" := (bind m (fun x => k))
  (at level 100, m at next level, right associativity).
Notation "m ;;; k" := (bind m (fun _ => k))
  (at level 100, right associativity).

Definition sys_exit {W A} (code : Z) : M W A := fun st => (Exit code, st).

Definition get_ARGS {W} : M W Args := fun st => (Done (ARGS st), st).

Definition put_ARGS {W} (a : Args) : M W unit :=
  fun st => (Done tt, mkState a (world st) (trace st)).

Definition get_world {W} : M W W := fun st => (Done (world st), st).

Definition emit {W} (e : event) : M W unit :=
  fun st => (Done tt, mkState (ARGS st) (world st) (trace st ++ [e])).

Definition print {W} (s : string) : M W unit := emit (Print s).

Fixpoint for_each {W A} (l : list A) (body : A -> M W unit) : M W unit :=
  match l with
  | [] => ret tt
  | x :: r => body x ;;; for_each r body
  end.

Section Program.
Context {W : Type} `{Platform W}.

(** [os.system(cmd)] *)
Definition system (cmd : string) : M W Z :=
  fun st =>
    let '(status, w') := os_system cmd (world st) in
    (Done status, mkState (ARGS st) w' (trace st ++ [System cmd])).

(** [timer()] *)
Definition timer : M W unit := emit Timer.

(** ** find_unit_tests *)

Definition supported_prefix : list string :=
  ["tb_"; "ts_"; "testbench_"; "testsuite_"; "unit_test_"].

Definition supported_suffix : list string :=
  ["_unit_test.v"; "_unit_test.sv";
   "_testbench.v"; "_testbench.sv";
   "_testsuite.v"; "_testsuite.sv";
   "_tb.v"; "_tb.sv"; "_ts.v"; "_ts.sv"].

(** What one directory entry appends to [files]. *)
Definition matches_of (w : W) (_file : string) : list string :=
  if isfile w _file then
    map (fun _ => _file) (filter (fun suffix => Py.endswith _file suffix = true) supported_suffix)
    ++ map (fun _ => _file) (filter (fun prefix => Py.startswith _file prefix = true) supported_prefix)
  else [].

(** The list [files] as the loop leaves it, duplicates included. *)
Definition collected (w : W) : list string :=
  fold_left (fun files _file => files ++ matches_of w _file) (listdir w) [].

Definition find_unit_tests (w : W) : list string :=
  let files := collected w in
  elements (list_to_set files : gset string).

(** ** The command builders *)

(** The loop over [args.dotfile]: the existing ones, each followed by a
    space. *)
Definition existing_dotfiles (w : W) (dots : list string) : string :=
  fold_left (fun dotfiles dot =>
               if isfile w dot then dotfiles +:+ dot +:+ " " else dotfiles)
            dots "".

(** [if args.dotfile: ...], shared by both builders. *)
Definition add_dotfiles (w : W) (args : Args) (cmd : string) : string :=
  match dotfile args with
  | [] => cmd
  | _ :: _ =>
      let dotfiles := existing_dotfiles w (dotfile args) in
      if Py.truthy dotfiles then cmd +:+ "-f " +:+ dotfiles +:+ " " else cmd
  end.

(** [test[-2:] != ".v" and test[-3:] != ".sv"] *)
Definition unsupported_extension (test : string) : bool :=
  negb (String.eqb (Py.slice_last 2 test) ".v")
  && negb (String.eqb (Py.slice_last 3 test) ".sv").

Definition extension_error : string :=
  "ERROR: failed to find supported extension.                Must use either *.v or *.sv".

Definition create_iverilog (args : Args) (test : string) : M W (list string) :=
  let cmds := ["rm -f icarus.out"] in
  let cmd := "iverilog -g2012 -Wall -o icarus.out " in
  let cmd := if Py.truthy (define args)
             then cmd +:+ get_defines (define args) else cmd in
  w <- get_world ;;
  let cmd := add_dotfiles w args cmd in
  let cmd := match include args with
             | [] => cmd
             | _ :: _ =>
                 let incs := Py.join " " (include args) in
                 cmd +:+ "-I " +:+ incs +:+ " "
             end in
  let cmd := cmd +:+ test +:+ " " in
  if unsupported_extension test then
    print extension_error ;;; sys_exit 1
  else
    let cmds := cmds ++ [cmd] in
    let cmd := "vvp " in
    let cmd := if Py.truthy (vpi args) then cmd +:+ vpi args +:+ " " else cmd in
    let cmd := cmd +:+ "icarus.out " in
    let cmd := if gui args then cmd +:+ "-lxt;" else cmd in
    let cmds := cmds ++ [cmd] in
    w <- get_world ;;
    let cmds := if gui args then
                  if isfile w "wave.gtkw"
                  then cmds ++ ["gtkwave *.lxt wave.gtkw &"]
                  else cmds ++ ["gtkwave *.lxt &"]
                else cmds in
    ret cmds.

(** [os.path.basename(test).split(".")[0]] *)
Definition testname_of (test : string) : string :=
  Py.head (Py.split "." (Py.basename test)).

Definition create_verilator (args : Args) (test : string) : M W (list string) :=
  let testname := testname_of test in
  let cmds := ["rm -fr build"] in
  let cmd := "verilator -Wall --trace --Mdir build +1800-2017ext+sv " in
  let cmd := cmd +:+ "+1800-2005ext+v -Wno-STMTDLY -Wno-UNUSED -Wno-UNDRIVEN -Wno-PINCONNECTEMPTY " in
  let cmd := cmd +:+ "-Wpedantic -Wno-VARHIDDEN -Wno-lint " in
  let cmd := if Py.truthy (define args)
             then cmd +:+ get_defines (define args) else cmd in
  w <- get_world ;;
  let cmd := add_dotfiles w args cmd in
  let cmd := fold_left (fun cmd inc => cmd +:+ "+incdir+" +:+ inc +:+ " ")
                       (include args) cmd in
  if unsupported_extension test then
    print extension_error ;;; sys_exit 1
  else
    let cmd := cmd +:+ "-cc --exe --build -j --top-module " +:+ testname +:+ " " in
    let cmd := cmd +:+ test +:+ " " +:+ main args in
    let cmds := cmds ++ [cmd] in
    let cmd := "make -j -C build -f V" +:+ testname +:+ ".mk V" +:+ testname in
    let cmds := cmds ++ [cmd] in
    let cmd := "build/V" +:+ testname in
    let cmds := cmds ++ [cmd] in
    ret cmds.

(** ** Status output *)

Definition print_event (event git_tag : string) : M W Z :=
  print "" ;;;
  print "------------------------------------------------" ;;;
  print ("SVUT " +:+ git_tag) ;;;
  w <- get_world ;;
  print (event +:+ " @ " +:+ strftime_now w) ;;;
  print "------------------------------------------------" ;;;
  print "" ;;;
  ret 0.

Definition get_git_tag : M W string :=
  w <- get_world ;;
  match git_describe w with
  | Some git_tag => ret git_tag
  | None =>
      print "WARNING: Can't get last git tag. Will return v0.0.0" ;;;
      ret "v0.0.0"
  end.

(** ** The driver *)

(** Copy [svut_h.sv] into the user folder if not present or different. *)
Definition sync_header : M W unit :=
  w <- get_world ;;
  let org_hfile := SCRIPTDIR +:+ "/svut_h.sv" in
  let curr_hfile := getcwd w +:+ "/svut_h.sv" in
  if negb (isfile w curr_hfile) || negb (filecmp_cmp w curr_hfile org_hfile) then
    print "INFO: Copy newest version of svut_h.sv" ;;;
    _ <- system ("cp " +:+ org_hfile +:+ " " +:+ getcwd w) ;;
    ret tt
  else ret tt.

(** The loop over [CMDS], with its [break]; the value is [cmdret] as the
    loop leaves it. *)
Fixpoint run_cmds (CMDS : list string) : M W Z :=
  match CMDS with
  | [] => ret 0
  | CMD :: rest =>
      print CMD ;;;
      cmdret <- system CMD ;;
      if negb (cmdret =? 0) then
        let cmdret := 1 in
        print ("ERROR: Command failed: " +:+ CMD) ;;;
        ret cmdret
      else run_cmds rest
  end.

(** Lines 273 to 284: lower the simulator name and build [CMDS]. *)
Definition build_cmds (tests : string) : M W (list string) :=
  a <- get_ARGS ;;
  put_ARGS (set_simulator (Py.lower (simulator a)) a) ;;;
  a <- get_ARGS ;;
  if Py.contains "iverilog" (simulator a) || Py.contains "icarus" (simulator a) then
    create_iverilog a tests
  else if Py.contains "verilator" (simulator a) then
    create_verilator a tests
  else
    print "ERROR: Simulator not supported. Icarus is the only option" ;;;
    sys_exit 1.

(** The body of [for tests in ARGS.test]. *)
Definition iteration (tests : string) : M W unit :=
  CMDS <- build_cmds tests ;;
  sync_header ;;;
  GIT_TAG <- get_git_tag ;;
  a <- get_ARGS ;;
  if dry a then
    print ("SVUT " +:+ GIT_TAG +:+ " dry-run: ") ;;;
    emit (PrintCmds CMDS) ;;;
    sys_exit 0
  else
    timer ;;;
    _ <- print_event "Start" GIT_TAG ;;
    cmdret <- run_cmds CMDS ;;
    timer ;;;
    emit PrintElapsed ;;;
    _ <- print_event "Stop" GIT_TAG ;;
    sys_exit cmdret.

(** The list the loop iterates over. *)
Definition tests_of (t : test_arg) : list string :=
  match t with
  | AllTests => []
  | Tests files => files
  end.

(** Lines 268 and 269: the default ["all"] is replaced by the discovered
    files. *)
Definition resolve_tests : M W unit :=
a <- get_ARGS ;;
match test a with
| AllTests =>
    w <- get_world ;;
    put_ARGS (set_test (Tests (find_unit_tests w)) a)
| Tests _ => ret tt
end.

Definition svut_main : M W unit :=
resolve_tests ;;;
a <- get_ARGS ;;
for_each (tests_of (test a)) iteration.

(** The exit code of the process: the argument of [sys.exit], and 0 when
    the program runs off its end. *)
Definition run (st : state W) : Z * state W :=
  match svut_main st with
  | (Done _, st') => (0, st')
  | (Exit code, st') => (code, st')
  end.

End Program.

(** ** Specification-side definitions *)

(** The flags the define entries [segs] stand for: [-D<entry>] and a space
    for each entry that is not empty, in order. *)
Fixpoint define_flags (segs : list string) : string :=
match segs with
| [] => ""
| d :: r =>
    if Py.truthy d then "-D" +:+ d +:+ " " +:+ define_flags r
    else define_flags r
end.

(** The tests the loop iterates over, once ["all"] is resolved. *)
Definition resolved_tests {W} `{Platform W} (st : state W) : list string :=
match test (ARGS st) with
| AllTests => find_unit_tests (world st)
| Tests files => files
end.

(** The state in which the loop starts. *)
Definition resolved {W} `{Platform W} (st : state W) : state W :=
match test (ARGS st) with
| AllTests =>
    mkState (set_test (Tests (find_unit_tests (world st))) (ARGS st))
            (world st) (trace st)
| Tests _ => st
end.

(** A computation that leaves the configuration as it found it. *)
Definition keeps_ARGS {W A} (m : M W A) : Prop :=
forall st, ARGS (snd (m st)) = ARGS st.

(** The first character of a string. *)
Definition first_char (s : string) : option ascii :=
match s with
| EmptyString => None
| String c _ => Some c
end.

(** The simulator names that select the Icarus builder, and those that
    select one of the two builders. *)
Definition selects_icarus (sim : string) : bool :=
Py.contains "iverilog" (Py.lower sim) || Py.contains "icarus" (Py.lower sim).

Definition supported_simulator (sim : string) : bool :=
selects_icarus sim || Py.contains "verilator" (Py.lower sim).

(** ** A scripted platform for concrete runs *)

(** The world is the list of the commands run so far; the working
    directory [/work] holds [dir] (a name, and whether it is a regular
    file) and [status] decides what each command returns. *)
Definition scripted (dir : list (string * bool))
    (status : list string -> string -> Z) : Platform (list string) :=
{| SCRIPTDIR := "/opt/svut";
   getcwd := fun _ => "/work";
   listdir := fun _ => map fst dir;
   isfile := fun _ f =>
     existsb (fun e => (String.eqb (fst e) f || String.eqb ("/work/" +:+ fst e) f)
                       && snd e) dir;
   filecmp_cmp := fun _ _ _ => true;
   os_system := fun cmd h => (status h cmd, h ++ [cmd]);
   git_describe := fun _ => Some "v1.9.0";
   strftime_now := fun _ => "12:00:00" |}.

(** Every command succeeds. *)
Definition all_pass : list string -> string -> Z := fun _ _ => 0.

(** The first run of the simulation fails, every other command succeeds. *)
Definition first_vvp_fails : list string -> string -> Z :=
fun h cmd =>
  if String.eqb cmd "vvp icarus.out " && negb (existsb (String.eqb "vvp icarus.out ") h)
  then 256 else 0.

(** The command line of a dry run in a directory that holds one test. *)
Definition dry_args : Args :=
mkArgs AllTests ["files.f"] "icarus" "sim_main.cpp" "" "" false true [].

(** The compilation fails for [tb_a.v], every other command succeeds. *)
Definition tb_a_does_not_compile : list string -> string -> Z :=
fun _ cmd => if Py.contains "tb_a.v" cmd && Py.startswith cmd "iverilog" then 256 else 0.

Definition two_tests : list (string * bool) :=
[("tb_a.v", true); ("tb_b.v", true); ("svut_h.sv", true)].

Definition start (a : Args) : state (list string) := mkState a [] [].

(** A directory with one test and nothing else; every command succeeds. *)
Definition adder_platform : Platform (list string) :=
scripted [("tb_adder.sv", true)] all_pass.

(** Two tests; the simulation of the first one fails. *)
Definition failing_run_platform : Platform (list string) :=
scripted two_tests first_vvp_fails.

(** Two tests; the first one does not compile. *)
Definition failing_compile_platform : Platform (list string) :=
scripted two_tests tb_a_does_not_compile.

(** A directory with a test that matches a prefix and a suffix, a
    directory whose name matches a prefix, and a file that matches
    nothing; [wave.gtkw] is there too. *)
Definition mixed_platform : Platform (list string) :=
scripted [("tb_x_tb.v", true); ("tb_dir", false); ("readme.md", true);
          ("wave.gtkw", true)] all_pass.

Definition two_tests_args : Args :=
mkArgs (Tests ["tb_a.v"; "tb_b.v"]) ["files.f"] "icarus" "sim_main.cpp"
       "" "" false false [].

Definition gui_args : Args :=
mkArgs (Tests ["tb_x_tb.v"]) ["files.f"] "icarus" "sim_main.cpp"
       "" "" true false [].

(** ** Definitions for the properties of the whole run *)

(** The commands handed to [os.system], in the order of the calls. *)
Fixpoint commands_run (tr : list event) : list string :=
match tr with
| [] => []
| System cmd :: r => cmd :: commands_run r
| _ :: r => commands_run r
end.

(** The six lines [print_event] writes at the time [now]. *)
Definition banner (what git_tag now : string) : list event :=
[Print "";
 Print "------------------------------------------------";
 Print ("SVUT " +:+ git_tag);
 Print (what +:+ " @ " +:+ now);
 Print "------------------------------------------------";
 Print ""].

(** The same state with another simulator name on the command line. *)
Definition with_simulator {W} (sim : string) (st : state W) : state W :=
mkState (set_simulator sim (ARGS st)) (world st) (trace st).

(** The dot files that exist, each followed by a space. *)
Definition listed_dotfiles {W} `{Platform W} (w : W) (dots : list string) : string :=
foldr (fun dot acc => dot +:+ " " +:+ acc) ""
      (filter (fun dot => isfile w dot = true) dots).

(** The [-f] part of a compilation command. *)
Definition dotfile_flags {W} `{Platform W} (w : W) (dots : list string) : string :=
if existsb (isfile w) dots then "-f " +:+ listed_dotfiles w dots +:+ " " else "".

(** The include part of the Icarus and of the Verilator compilation. *)
Definition icarus_includes (incs : list string) : string :=
match incs with
| [] => ""
| _ :: _ => "-I " +:+ Py.join " " incs +:+ " "
end.

Definition verilator_includes (incs : list string) : string :=
foldr (fun inc acc => "+incdir+" +:+ inc +:+ " " +:+ acc) "" incs.

(** The world after the commands [cmds] have been run one after another. *)
Definition world_after {W} `{Platform W} (cmds : list string) (w : W) : W :=
fold_left (fun w cmd => snd (os_system cmd w)) cmds w.

(** A platform whose directory holds nothing that is a test. *)
Definition no_test_platform : Platform (list string) :=
scripted [("readme.md", true); ("tb_dir", false); ("files.f", true)] all_pass.

(** * Properties *)

(** ** Strings *)

Section StringFacts.

Lemma str_app_cons c s t : String c s +:+ t = String c (s +:+ t).
Proof. reflexivity. Qed.

Lemma str_app_nil_l s : "" +:+ s = s.
Proof. reflexivity. Qed.

Lemma str_app_nil_r s : s +:+ "" = s.
Proof. induction s as [|c s IH]; [reflexivity|]. rewrite str_app_cons, IH. reflexivity. Qed.

Lemma str_app_assoc s t u : (s +:+ t) +:+ u = s +:+ t +:+ u.
Proof.
  induction s as [|c s IH]; [reflexivity|].
  rewrite !str_app_cons, IH. reflexivity.
Qed.

Lemma str_length_app s t :
  String.length (s +:+ t) = (String.length s + String.length t)%nat.
Proof.
  induction s as [|c s IH]; [reflexivity|].
  rewrite str_app_cons. simpl. rewrite IH. reflexivity.
Qed.

Lemma drop_app s t : Py.drop (String.length s) (s +:+ t) = t.
Proof.
  induction s as [|c s IH]; [destruct t; reflexivity|].
  rewrite str_app_cons. simpl. exact IH.
Qed.

Lemma drop_split n s :
  (n <= String.length s)%nat ->
  exists p, s = p +:+ Py.drop n s /\ String.length p = n.
Proof.
  revert s. induction n as [|n IH]; intros s Hn.
  - exists "". split; [destruct s|]; reflexivity.
  - destruct s as [|c s]; simpl in Hn; [lia|].
    destruct (IH s) as (p & Hp & Hl); [lia|].
    exists (String c p). split; [|simpl; congruence].
    rewrite str_app_cons. simpl. congruence.
Qed.

(** [endswith] says what its name says. *)
Lemma endswith_spec s suf :
  Py.endswith s suf = true <-> exists p, s = p +:+ suf.
Proof.
  unfold Py.endswith. rewrite andb_true_iff, Nat.leb_le, String.eqb_eq.
  split.
  - intros [Hle Hd].
    destruct (drop_split (String.length s - String.length suf) s) as (p & Hp & _);
      [lia|].
    exists p. congruence.
  - intros [p ->]. rewrite str_length_app. split; [lia|].
    replace (String.length p + String.length suf - String.length suf)%nat
      with (String.length p) by lia.
    apply drop_app.
Qed.

Lemma prefix_nil s : String.prefix "" s = true.
Proof. destruct s; reflexivity. Qed.

Lemma startswith_spec s p :
  Py.startswith s p = true <-> exists r, s = p +:+ r.
Proof.
  unfold Py.startswith. revert s.
  induction p as [|c p IH]; intros s.
  - rewrite prefix_nil. split; [exists s; reflexivity|reflexivity].
  - destruct s as [|d s]; simpl.
    + split; [discriminate|]. intros [r Hr]. rewrite str_app_cons in Hr. discriminate.
    + destruct (ascii_dec c d) as [->|Hne].
      * rewrite IH. split; intros [r Hr]; exists r.
        -- rewrite str_app_cons. congruence.
        -- rewrite str_app_cons in Hr. congruence.
      * split; [discriminate|]. intros [r Hr].
        rewrite str_app_cons in Hr. congruence.
Qed.

(** [s[-n:] == suf] is [s.endswith(suf)] for a suffix of [n] characters. *)
Lemma slice_last_endswith s suf :
  String.eqb (Py.slice_last (String.length suf) s) suf = Py.endswith s suf.
Proof.
  unfold Py.slice_last, Py.endswith.
  destruct (String.length suf <=? String.length s)%nat eqn:Hle; [reflexivity|].
  apply Nat.leb_gt in Hle. simpl.
  apply String.eqb_neq. intros Heq.
  replace (String.length s - String.length suf)%nat with 0%nat in Heq by lia.
  assert (Py.drop 0 s = s) as E by (destruct s; reflexivity).
  rewrite E in Heq. subst. lia.
Qed.

End StringFacts.

(** ** get_defines *)

Section Defines.

Lemma contains_char_cons c d r :
  Py.contains (String c "") (String d r)
  = Ascii.eqb d c || Py.contains (String c "") r.
Proof.
  simpl. destruct (ascii_dec c d) as [->|Hne].
  - rewrite prefix_nil, Ascii.eqb_refl. reflexivity.
  - assert (Ascii.eqb d c = false) as -> by (apply Ascii.eqb_neq; congruence).
    reflexivity.
Qed.

Lemma split_no_sep c s :
  Py.contains (String c "") s = false -> Py.split c s = [s].
Proof.
  induction s as [|d s IH]; [reflexivity|].
  rewrite contains_char_cons. intros [Hd Hs]%orb_false_iff.
  simpl. rewrite Hd, (IH Hs). reflexivity.
Qed.

Lemma split_app_sep c x r :
  Py.contains (String c "") x = false ->
  Py.split c (x +:+ String c r) = x :: Py.split c r.
Proof.
  induction x as [|d x IH].
  - intros _. rewrite str_app_nil_l. simpl. rewrite Ascii.eqb_refl. reflexivity.
  - rewrite contains_char_cons. intros [Hd Hx]%orb_false_iff.
    rewrite str_app_cons. simpl. rewrite Hd, (IH Hx). reflexivity.
Qed.

Lemma split_join c segs :
  segs <> [] ->
  Forall (fun d => Py.contains (String c "") d = false) segs ->
  Py.split c (Py.join (String c "") segs) = segs.
Proof.
  intros Hne Hall. induction Hall as [|d r Hd Hr IH]; [congruence|].
  destruct r as [|d' r'].
  - simpl. apply split_no_sep, Hd.
  - change (Py.join (String c "") (d :: d' :: r'))
      with (d +:+ String c "" +:+ Py.join (String c "") (d' :: r')).
    rewrite str_app_cons, str_app_nil_l, split_app_sep by exact Hd.
    rewrite IH by discriminate. reflexivity.
Qed.

Lemma fold_add_define segs acc :
  fold_left add_define segs acc = acc +:+ define_flags segs.
Proof.
  revert acc. induction segs as [|d r IH]; intros acc; simpl.
  - rewrite str_app_nil_r. reflexivity.
  - rewrite IH. unfold add_define. destruct (Py.truthy d); [|reflexivity].
    rewrite !str_app_assoc. reflexivity.
Qed.

Lemma join_empty_flags sep segs :
  Py.join sep segs = "" -> define_flags segs = "".
Proof.
  induction segs as [|d r IH]; [reflexivity|].
  destruct r as [|d' r'].
  - simpl. intros ->. reflexivity.
  - change (Py.join sep (d :: d' :: r'))
      with (d +:+ sep +:+ Py.join sep (d' :: r')).
    intros Hj. destruct d as [|a d]; [|rewrite str_app_cons in Hj; discriminate].
    rewrite str_app_nil_l in Hj.
    destruct sep as [|a sep]; [|rewrite str_app_cons in Hj; discriminate].
    rewrite str_app_nil_l in Hj. simpl. apply IH, Hj.
Qed.

(** C7: the define string ["A=1;B;;C=3"] is formatted as
    ["-DA=1 -DB -DC=3 "]; in general the entries of a semicolon-separated
    define string each become [-D<entry>] followed by a space, and the
    empty entries produce nothing. *)
Theorem C7_get_defines :
  get_defines "A=1;B;;C=3" = "-DA=1 -DB -DC=3 "
  /\ forall segs : list string,
       Forall (fun d => Py.contains ";" d = false) segs ->
       get_defines (Py.join ";" segs) = define_flags segs.
Proof.
  split; [reflexivity|].
  intros segs Hall. unfold get_defines.
  destruct (Py.truthy (Py.join ";" segs)) eqn:Ht; simpl.
  - assert (segs <> []) as Hne by (intros ->; discriminate).
    rewrite (split_join ";"%char segs Hne Hall), fold_add_define.
    apply str_app_nil_l.
  - symmetry. apply (join_empty_flags ";").
    destruct (Py.join ";" segs); [reflexivity|discriminate].
Qed.

(** C7 at the entries of the example, one of them empty. *)
Lemma C7_get_defines_witness :
  get_defines (Py.join ";" ["A=1"; "B"; ""; "C=3"]) = "-DA=1 -DB -DC=3 ".
Proof.
  destruct C7_get_defines as [_ Hgen].
  rewrite (Hgen ["A=1"; "B"; ""; "C=3"]); [reflexivity|].
  repeat constructor.
Defined.

End Defines.

(** ** The monad and the configuration *)

Create HintDb frame discriminated.

Section Frames.
Context {W : Type} `{Platform W}.

Lemma keeps_ret {A} (a : A) : keeps_ARGS (W := W) (ret a).
Proof. intros st. reflexivity. Qed.

Lemma keeps_sys_exit {A} c : keeps_ARGS (W := W) (A := A) (sys_exit c).
Proof. intros st. reflexivity. Qed.

Lemma keeps_get_ARGS : keeps_ARGS (W := W) get_ARGS.
Proof. intros st. reflexivity. Qed.

Lemma keeps_get_world : keeps_ARGS (W := W) get_world.
Proof. intros st. reflexivity. Qed.

Lemma keeps_emit e : keeps_ARGS (W := W) (emit e).
Proof. intros st. reflexivity. Qed.

Lemma keeps_print s : keeps_ARGS (W := W) (print s).
Proof. intros st. reflexivity. Qed.

Lemma keeps_timer : keeps_ARGS (W := W) timer.
Proof. intros st. reflexivity. Qed.

Lemma keeps_system cmd : keeps_ARGS (system cmd).
Proof.
  intros st. unfold system. destruct (os_system cmd (world st)). reflexivity.
Qed.

Lemma keeps_bind {A B} (m : M W A) (k : A -> M W B) :
  keeps_ARGS m -> (forall a, keeps_ARGS (k a)) -> keeps_ARGS (bind m k).
Proof.
  intros Hm Hk st. unfold bind. specialize (Hm st).
  destruct (m st) as [[a|c] st1]; simpl in *; [|exact Hm].
  rewrite Hk. exact Hm.
Qed.

(** What follows a computation does not matter for the configuration when
    it keeps it. *)
Lemma bind_keeps_r {A B} (m : M W A) (k : A -> M W B) st :
  (forall a, keeps_ARGS (k a)) ->
  ARGS (snd (bind m k st)) = ARGS (snd (m st)).
Proof.
  intros Hk. unfold bind.
  destruct (m st) as [[a|c] st1]; simpl; [apply Hk|reflexivity].
Qed.

End Frames.

#[export] Hint Resolve keeps_ret keeps_sys_exit keeps_get_ARGS keeps_get_world
  keeps_emit keeps_print keeps_timer keeps_system : frame.

(** Walks through a computation built from binds and branches. *)
Ltac keeps :=
  repeat first
    [ progress (cbv zeta)
    | apply keeps_bind; [|intros ?]
    | solve [auto with frame]
    | match goal with
      | |- keeps_ARGS (if ?b then _ else _) => destruct b
      | |- keeps_ARGS (match ?x with _ => _ end) => destruct x
      end ].

Section FramesOfTheProgram.
Context {W : Type} `{Platform W}.

Lemma keeps_create_iverilog args t : keeps_ARGS (create_iverilog args t).
Proof. unfold create_iverilog. keeps. Qed.

Lemma keeps_create_verilator args t : keeps_ARGS (create_verilator args t).
Proof. unfold create_verilator. keeps. Qed.

Lemma keeps_print_event e tag : keeps_ARGS (print_event e tag).
Proof. unfold print_event. keeps. Qed.

Lemma keeps_get_git_tag : keeps_ARGS get_git_tag.
Proof. unfold get_git_tag. keeps. Qed.

Lemma keeps_sync_header : keeps_ARGS sync_header.
Proof. unfold sync_header. keeps. Qed.

Lemma keeps_run_cmds CMDS : keeps_ARGS (run_cmds CMDS).
Proof.
  induction CMDS as [|CMD rest IH]; simpl; [auto with frame|].
  keeps.
Qed.

End FramesOfTheProgram.

#[export] Hint Resolve keeps_create_iverilog keeps_create_verilator
  keeps_print_event keeps_get_git_tag keeps_sync_header keeps_run_cmds : frame.

(** ** The command builders *)

Section Builders.
Context {W : Type} `{Platform W}.

Lemma first_char_app s x c :
  first_char s = Some c -> first_char (s +:+ x) = Some c.
Proof. destruct s; [discriminate|]. rewrite str_app_cons. exact id. Qed.

Lemma first_char_add_dotfiles w args cmd c :
  first_char cmd = Some c -> first_char (add_dotfiles w args cmd) = Some c.
Proof.
  intros Hc. unfold add_dotfiles. destruct (dotfile args); [exact Hc|].
  cbv zeta. destruct (Py.truthy _); [apply first_char_app|]; exact Hc.
Qed.

Lemma first_char_incdirs incs cmd c :
  first_char cmd = Some c ->
  first_char (fold_left (fun cmd inc => cmd +:+ "+incdir+" +:+ inc +:+ " ")
                        incs cmd) = Some c.
Proof.
  revert cmd. induction incs as [|inc incs IH]; intros cmd Hc; [exact Hc|].
  simpl. apply IH, first_char_app, Hc.
Qed.

(** An unsupported extension: the error is printed and the program exits
    with code 1; nothing else happens. *)
Lemma create_iverilog_exit args t (st : state W) :
  unsupported_extension t = true ->
  create_iverilog args t st
  = (Exit 1, mkState (ARGS st) (world st) (trace st ++ [Print extension_error])).
Proof.
  intros Hext. unfold create_iverilog, bind, get_world. cbv zeta.
  rewrite Hext. reflexivity.
Qed.

Lemma create_verilator_exit args t (st : state W) :
  unsupported_extension t = true ->
  create_verilator args t st
  = (Exit 1, mkState (ARGS st) (world st) (trace st ++ [Print extension_error])).
Proof.
  intros Hext. unfold create_verilator, bind, get_world. cbv zeta.
  rewrite Hext. reflexivity.
Qed.

(** A supported extension: the Icarus builder returns its commands and
    leaves the state alone. The list is the clean-up, the compilation, the
    simulation and, with [-gui], the viewer. *)
Lemma create_iverilog_done args t (st : state W) :
  unsupported_extension t = false ->
  exists compile simulate,
    first_char compile = Some "i"%char
    /\ first_char simulate = Some "v"%char
    /\ create_iverilog args t st
       = (Done (["rm -f icarus.out"; compile; simulate]
                ++ (if gui args then
                      [if isfile (world st) "wave.gtkw"
                       then "gtkwave *.lxt wave.gtkw &"
                       else "gtkwave *.lxt &"]
                    else [])), st).
Proof.
  intros Hext. unfold create_iverilog, bind, get_world. cbv zeta.
  rewrite Hext. simpl fst. simpl snd. cbv beta iota.
  assert (forall x, first_char
            (match include args with
             | [] => add_dotfiles (world st) args
                       (if Py.truthy (define args)
                        then "iverilog -g2012 -Wall -o icarus.out "
                               +:+ get_defines (define args)
                        else "iverilog -g2012 -Wall -o icarus.out ")
             | _ :: _ => add_dotfiles (world st) args
                       (if Py.truthy (define args)
                        then "iverilog -g2012 -Wall -o icarus.out "
                               +:+ get_defines (define args)
                        else "iverilog -g2012 -Wall -o icarus.out ") +:+ x
             end) = Some "i"%char) as Hcompile.
  { intros x. destruct (include args); [|apply first_char_app];
      apply first_char_add_dotfiles;
      (destruct (Py.truthy (define args)); [apply first_char_app|]); reflexivity. }
  assert (first_char ((if Py.truthy (vpi args)
                       then "vvp " +:+ vpi args +:+ " " else "vvp ")
                      +:+ "icarus.out ") = Some "v"%char) as Hsim.
  { apply first_char_app.
    destruct (Py.truthy (vpi args)); [apply first_char_app|]; reflexivity. }
  destruct (gui args); [destruct (isfile (world st) "wave.gtkw")|];
    eexists _, _; (split; [|split; [|reflexivity]]);
    try (apply first_char_app, Hcompile); try (apply first_char_app, Hsim);
    exact Hsim.
Qed.

(** The same for the Verilator builder, whose list has always four
    commands, each naming the module [testname_of t]. *)
Lemma create_verilator_done args t (st : state W) :
  unsupported_extension t = false ->
  exists flags,
    first_char flags = Some "v"%char
    /\ create_verilator args t st
       = (Done ["rm -fr build";
                (flags +:+ "-cc --exe --build -j --top-module "
                       +:+ testname_of t +:+ " ")
                  +:+ t +:+ " " +:+ main args;
                "make -j -C build -f V" +:+ testname_of t +:+ ".mk V"
                  +:+ testname_of t;
                "build/V" +:+ testname_of t], st).
Proof.
  intros Hext. unfold create_verilator, bind, get_world. cbv zeta.
  rewrite Hext. simpl fst. simpl snd. cbv beta iota.
  eexists. split; [|reflexivity].
  apply first_char_incdirs, first_char_add_dotfiles.
  destruct (Py.truthy (define args)); [apply first_char_app|]; reflexivity.
Qed.

End Builders.

(** ** The driver *)

Section Driver.
Context {W : Type} `{Platform W}.

Lemma resolve_tests_spec (st : state W) :
  resolve_tests st = (Done tt, resolved st).
Proof.
  unfold resolve_tests, resolved, bind, get_ARGS, get_world, put_ARGS, ret.
  destruct (test (ARGS st)); reflexivity.
Qed.

Lemma tests_of_resolved (st : state W) :
  tests_of (test (ARGS (resolved st))) = resolved_tests st.
Proof. unfold resolved, resolved_tests. destruct (test (ARGS st)) eqn:E; [reflexivity|]. rewrite E. reflexivity. Qed.

Lemma world_resolved (st : state W) : world (resolved st) = world st.
Proof. unfold resolved. destruct (test (ARGS st)); reflexivity. Qed.

Lemma trace_resolved (st : state W) : trace (resolved st) = trace st.
Proof. unfold resolved. destruct (test (ARGS st)); reflexivity. Qed.

Lemma svut_main_loop (st : state W) :
  svut_main st = for_each (resolved_tests st) iteration (resolved st).
Proof.
  unfold svut_main, bind at 1. rewrite resolve_tests_spec.
  unfold bind at 1, get_ARGS. rewrite tests_of_resolved. reflexivity.
Qed.

(** The header copy: at most one [cp], and nothing but that. *)
Lemma sync_header_spec (st : state W) :
  exists added,
    sync_header st
    = (Done tt, mkState (ARGS st) (world (snd (sync_header st))) (trace st ++ added))
    /\ (added = []
        \/ added = [Print "INFO: Copy newest version of svut_h.sv";
                    System ("cp " +:+ (SCRIPTDIR +:+ "/svut_h.sv") +:+ " "
                                  +:+ getcwd (world st))]).
Proof.
  unfold sync_header, bind, get_world. cbv zeta.
  destruct (negb _ || negb _).
  - eexists. split; [|right; reflexivity].
    unfold print, emit, system, ret. simpl.
    destruct (os_system _ _) as [status w']. simpl.
    rewrite <- app_assoc. reflexivity.
  - exists []. split; [|left; reflexivity].
    unfold ret. simpl. rewrite app_nil_r. destruct st; reflexivity.
Qed.

(** The tag lookup only prints, and only when the lookup fails. *)
Lemma get_git_tag_spec (st : state W) :
  exists tag added,
    get_git_tag st = (Done tag, mkState (ARGS st) (world st) (trace st ++ added))
    /\ (added = []
        \/ added = [Print "WARNING: Can't get last git tag. Will return v0.0.0"]).
Proof.
  unfold get_git_tag, bind, get_world.
  destruct (git_describe (world st)) as [tag|].
  - exists tag, []. split; [|left; reflexivity].
    unfold ret. rewrite app_nil_r. destruct st; reflexivity.
  - eexists _, _. split; [reflexivity|right; reflexivity].
Qed.

Lemma print_event_returns e tag (st : state W) :
  exists st', print_event e tag st = (Done 0, st').
Proof. eexists. reflexivity. Qed.

(** The loop over the commands ends, with [cmdret] 0 or 1. *)
Lemma run_cmds_returns CMDS (st : state W) :
  exists cmdret st',
    run_cmds CMDS st = (Done cmdret, st') /\ (cmdret = 0 \/ cmdret = 1).
Proof.
  revert st. induction CMDS as [|CMD rest IH]; intros st.
  - exists 0, st. split; [reflexivity|left; reflexivity].
  - simpl. unfold bind, print, emit, system. simpl.
    destruct (os_system CMD (world st)) as [status w'].
    destruct (negb (status =? 0)).
    + eexists 1, _. split; [reflexivity|right; reflexivity].
    + apply IH.
Qed.

(** One step of the loop when the command fails: the diagnostic names the
    command and the rest of the list is not looked at. *)
Lemma run_cmds_fail CMD rest (st : state W) :
  fst (os_system CMD (world st)) <> 0 ->
  run_cmds (CMD :: rest) st
  = (Done 1,
     mkState (ARGS st) (snd (os_system CMD (world st)))
             (trace st ++ [Print CMD; System CMD;
                           Print ("ERROR: Command failed: " +:+ CMD)])).
Proof.
  intros Hfail. simpl. unfold bind, print, emit, system. simpl.
  destruct (os_system CMD (world st)) as [status w']. simpl in *.
  apply Z.eqb_neq in Hfail. rewrite Hfail. simpl.
  rewrite <- !app_assoc. reflexivity.
Qed.

(** One step of the loop when the command succeeds. *)
Lemma run_cmds_ok CMD rest (st : state W) :
  fst (os_system CMD (world st)) = 0 ->
  run_cmds (CMD :: rest) st
  = run_cmds rest
      (mkState (ARGS st) (snd (os_system CMD (world st)))
               (trace st ++ [Print CMD; System CMD])).
Proof.
  intros Hok. simpl. unfold bind, print, emit, system. simpl.
  destruct (os_system CMD (world st)) as [status w']. simpl in *.
  subst status. simpl. rewrite <- !app_assoc. reflexivity.
Qed.

(** Every path through the loop body ends in [sys.exit]. *)
Lemma iteration_exits t (st : state W) :
  exists code st', iteration t st = (Exit code, st').
Proof.
  unfold iteration, bind at 1.
  destruct (build_cmds t st) as [[CMDS|code] st1]; [|eauto].
  unfold bind at 1.
  destruct (sync_header_spec st1) as (added & -> & _).
  unfold bind at 1.
  destruct (get_git_tag_spec
              (mkState (ARGS st1) (world (snd (sync_header st1)))
                       (trace st1 ++ added))) as (tag & added' & -> & _).
  unfold bind at 1, get_ARGS. simpl fst. simpl snd. cbv beta iota.
  destruct (dry _); [eexists _, _; reflexivity|].
  unfold bind at 1, timer, emit. simpl fst; simpl snd; cbv beta iota.
  unfold bind at 1.
  match goal with |- context [print_event "Start" tag ?s] =>
    destruct (print_event_returns "Start" tag s) as (s1 & ->) end.
  unfold bind at 1.
  destruct (run_cmds_returns CMDS s1) as (cmdret & s2 & -> & _).
  unfold bind at 1. simpl fst; simpl snd; cbv beta iota.
  unfold bind at 1. simpl fst; simpl snd; cbv beta iota.
  unfold bind at 1.
  match goal with |- context [print_event "Stop" tag ?s] =>
    destruct (print_event_returns "Stop" tag s) as (s3 & ->) end.
  eexists _, _. reflexivity.
Qed.

(** So the loop never reaches its second test: the program is the loop
    body at the first one. *)
Lemma svut_main_first t rest (st : state W) :
  resolved_tests st = t :: rest ->
  svut_main st = iteration t (resolved st).
Proof.
  intros Hres. rewrite svut_main_loop, Hres. simpl. unfold bind.
  destruct (iteration_exits t (resolved st)) as (code & st' & ->).
  reflexivity.
Qed.

Lemma svut_main_none (st : state W) :
  resolved_tests st = [] -> svut_main st = (Done tt, resolved st).
Proof. intros Hres. rewrite svut_main_loop, Hres. reflexivity. Qed.

End Driver.

(** ** The module name of a Verilator test *)

Section Testname.

(** [basename] cuts the path after its last slash. *)
Lemma basename_spec p :
  exists dir,
    p = dir +:+ Py.basename p
    /\ (dir = "" \/ exists d, dir = d +:+ "/")
    /\ Py.contains "/" (Py.basename p) = false.
Proof.
  induction p as [|c r IH].
  - exists "". repeat split. left. reflexivity.
  - simpl Py.basename. destruct (Py.contains "/" r) eqn:Hr.
    + destruct IH as (dir & Hp & Hdir & Hbase).
      destruct Hdir as [->|[d ->]].
      * rewrite str_app_nil_l in Hp. rewrite <- Hp in Hbase. congruence.
      * exists (String c (d +:+ "/")). split; [|split; [|exact Hbase]].
        -- rewrite str_app_cons. congruence.
        -- right. exists (String c d). reflexivity.
    + destruct (Ascii.eqb c "/") eqn:Hc.
      * apply Ascii.eqb_eq in Hc. subst c.
        exists "/". split; [reflexivity|]. split; [|exact Hr].
        right. exists "". reflexivity.
      * exists "". split; [reflexivity|]. split; [left; reflexivity|].
        rewrite contains_char_cons, Hc, Hr. reflexivity.
Qed.

Lemma split_not_nil c s : Py.split c s <> [].
Proof.
  destruct s as [|d r]; simpl; [discriminate|].
  destruct (Ascii.eqb d c); [discriminate|].
  destruct (Py.split c r); discriminate.
Qed.

(** The first piece of a split is the text up to the first separator. *)
Lemma split_head_spec c s :
  exists ext,
    s = Py.head (Py.split c s) +:+ ext
    /\ Py.contains (String c "") (Py.head (Py.split c s)) = false
    /\ (ext = "" \/ exists e, ext = String c e).
Proof.
  induction s as [|d r IH].
  - exists "". repeat split. left. reflexivity.
  - simpl Py.split. destruct (Ascii.eqb d c) eqn:Hd.
    + apply Ascii.eqb_eq in Hd. subst d.
      exists (String c r). repeat split. right. exists r. reflexivity.
    + destruct IH as (ext & Hs & Hno & Hext).
      destruct (Py.split c r) as [|h tl] eqn:Hsp; [destruct (split_not_nil c r Hsp)|].
      cbn [Py.head] in *. exists ext. split; [|split; [|exact Hext]].
      * rewrite str_app_cons. congruence.
      * rewrite contains_char_cons, Hd, Hno. reflexivity.
Qed.

(** The module name: the path is a directory part, the name, and what
    starts at the first dot of the file name. *)
Lemma testname_of_spec t :
  exists dir ext,
    t = dir +:+ testname_of t +:+ ext
    /\ (dir = "" \/ exists d, dir = d +:+ "/")
    /\ Py.contains "/" (testname_of t +:+ ext) = false
    /\ Py.contains "." (testname_of t) = false
    /\ (ext = "" \/ exists e, ext = String "." e).
Proof.
  destruct (basename_spec t) as (dir & Ht & Hdir & Hbase).
  destruct (split_head_spec "." (Py.basename t)) as (ext & Hb & Hno & Hext).
  exists dir, ext. unfold testname_of.
  rewrite <- Hb. auto.
Qed.

End Testname.

(** ** Claims about the command builders *)

Section BuilderClaims.
Context {W : Type} `{Platform W}.

Lemma unsupported_extension_endswith t :
  unsupported_extension t = negb (Py.endswith t ".v") && negb (Py.endswith t ".sv").
Proof.
  unfold unsupported_extension.
  rewrite <- (slice_last_endswith t ".v"), <- (slice_last_endswith t ".sv").
  reflexivity.
Qed.

Lemma build_cmds_spec t (st : state W) :
  build_cmds t st
  = let a := set_simulator (Py.lower (simulator (ARGS st))) (ARGS st) in
    let st1 := mkState a (world st) (trace st) in
    if selects_icarus (simulator (ARGS st)) then create_iverilog a t st1
    else if Py.contains "verilator" (Py.lower (simulator (ARGS st)))
         then create_verilator a t st1
         else (Exit 1,
               mkState a (world st)
                 (trace st ++ [Print "ERROR: Simulator not supported. Icarus is the only option"])).
Proof.
  unfold build_cmds, selects_icarus, bind, get_ARGS, put_ARGS. simpl.
  destruct (_ || _); [reflexivity|].
  destruct (Py.contains "verilator" _); reflexivity.
Qed.

Lemma build_cmds_exit t (st : state W) :
  supported_simulator (simulator (ARGS st)) = true ->
  unsupported_extension t = true ->
  build_cmds t st
  = (Exit 1,
     mkState (set_simulator (Py.lower (simulator (ARGS st))) (ARGS st))
             (world st) (trace st ++ [Print extension_error])).
Proof.
  intros Hsim Hext. rewrite build_cmds_spec. cbv zeta.
  unfold supported_simulator in Hsim.
  destruct (selects_icarus _); simpl in Hsim.
  - rewrite create_iverilog_exit by exact Hext. reflexivity.
  - rewrite Hsim, create_verilator_exit by exact Hext. reflexivity.
Qed.

(** When the command list is built, nothing was printed or run, and no
    command of the list is a [cp]. *)
Lemma build_cmds_done t (st st1 : state W) CMDS :
  build_cmds t st = (Done CMDS, st1) ->
  st1 = mkState (set_simulator (Py.lower (simulator (ARGS st))) (ARGS st))
                (world st) (trace st)
  /\ Forall (fun c => first_char c <> Some "c"%char) CMDS.
Proof.
  rewrite build_cmds_spec. cbv zeta.
  destruct (unsupported_extension t) eqn:Hext.
  - destruct (selects_icarus _);
      [rewrite create_iverilog_exit by exact Hext; discriminate|].
    destruct (Py.contains "verilator" _);
      [rewrite create_verilator_exit by exact Hext|]; discriminate.
  - destruct (selects_icarus _).
    + match goal with |- create_iverilog ?a t ?s = _ -> _ =>
        destruct (create_iverilog_done a t s Hext) as (c1 & c2 & H1 & H2 & ->) end.
      intros [= <- <-]. split; [reflexivity|].
      apply Forall_cons; split; [discriminate|].
      apply Forall_cons; split; [rewrite H1; discriminate|].
      apply Forall_cons; split; [rewrite H2; discriminate|].
      match goal with |- context [gui ?a] => destruct (gui a) end; [|constructor].
      apply Forall_cons; split; [|constructor].
      match goal with |- context [isfile ?w ?f] => destruct (isfile w f) end;
        discriminate.
    + destruct (Py.contains "verilator" _); [|discriminate].
      match goal with |- create_verilator ?a t ?s = _ -> _ =>
        destruct (create_verilator_done a t s Hext) as (fl & Hfl & ->) end.
      intros [= <- <-]. split; [reflexivity|].
      repeat constructor; try discriminate.
      rewrite (first_char_app _ _ "v"%char); [discriminate|].
      apply first_char_app, Hfl.
Qed.

(** C5: a test file that ends neither in [.v] nor in [.sv] makes both
    builders print the error and exit with code 1, with no command run
    and the world untouched; a program whose first test is such a file
    exits with code 1 and has done nothing but print that error. *)
Theorem C5_unsupported_extension (t : string) :
  Py.endswith t ".v" = false ->
  Py.endswith t ".sv" = false ->
  (forall args (st : state W),
     create_iverilog args t st
     = (Exit 1, mkState (ARGS st) (world st) (trace st ++ [Print extension_error]))
     /\ create_verilator args t st
        = (Exit 1, mkState (ARGS st) (world st) (trace st ++ [Print extension_error])))
  /\ (forall (st : state W) rest,
        resolved_tests st = t :: rest ->
        supported_simulator (simulator (ARGS st)) = true ->
        fst (run st) = 1
        /\ world (snd (run st)) = world st
        /\ trace (snd (run st)) = trace st ++ [Print extension_error]).
Proof.
  intros Hv Hsv.
  assert (unsupported_extension t = true) as Hext
    by (rewrite unsupported_extension_endswith, Hv, Hsv; reflexivity).
  split.
  - intros args st. split;
      [apply create_iverilog_exit|apply create_verilator_exit]; exact Hext.
  - intros st rest Hres Hsim.
    assert (svut_main st
            = (Exit 1,
               mkState (set_simulator (Py.lower (simulator (ARGS (resolved st))))
                                      (ARGS (resolved st)))
                       (world (resolved st))
                       (trace (resolved st) ++ [Print extension_error]))) as Hrun.
    { rewrite (svut_main_first t rest st Hres). unfold iteration, bind at 1.
      rewrite build_cmds_exit; [reflexivity| |exact Hext].
      unfold resolved. destruct (test (ARGS st)); exact Hsim. }
    unfold run. rewrite Hrun. cbn [fst snd world trace].
    rewrite world_resolved, trace_resolved. auto.
Qed.

(** C8: with [-gui] the last command of the Icarus list launches the
    viewer, with [wave.gtkw] when that file exists and without a save
    file when it does not. *)
Theorem C8_gui_viewer args t (st : state W) :
  gui args = true ->
  unsupported_extension t = false ->
  exists cmds,
    create_iverilog args t st = (Done cmds, st)
    /\ last cmds = Some (if isfile (world st) "wave.gtkw"
                         then "gtkwave *.lxt wave.gtkw &"
                         else "gtkwave *.lxt &").
Proof.
  intros Hgui Hext.
  destruct (create_iverilog_done args t st Hext) as (c1 & c2 & _ & _ & Hrun).
  rewrite Hgui in Hrun. eexists. split; [exact Hrun|reflexivity].
Qed.

(** C9: the module name of [./dir/my_test.sv] is [my_test]; in general it
    is the file name without its directory, up to its first dot; and the
    Verilator list names it after [--top-module], in the makefile call and
    in the binary [build/V<name>]. *)
Theorem C9_verilator_module_name :
  testname_of "./dir/my_test.sv" = "my_test"
  /\ (forall t, exists dir ext,
        t = dir +:+ testname_of t +:+ ext
        /\ (dir = "" \/ exists d, dir = d +:+ "/")
        /\ Py.contains "/" (testname_of t +:+ ext) = false
        /\ Py.contains "." (testname_of t) = false
        /\ (ext = "" \/ exists e, ext = String "." e))
  /\ (forall args t (st : state W),
        unsupported_extension t = false ->
        exists flags,
          create_verilator args t st
          = (Done ["rm -fr build";
                   (flags +:+ "-cc --exe --build -j --top-module "
                          +:+ testname_of t +:+ " ")
                     +:+ t +:+ " " +:+ main args;
                   "make -j -C build -f V" +:+ testname_of t +:+ ".mk V"
                     +:+ testname_of t;
                   "build/V" +:+ testname_of t], st)).
Proof.
  split; [reflexivity|]. split; [exact testname_of_spec|].
  intros args t st Hext.
  destruct (create_verilator_done args t st Hext) as (flags & _ & Hrun).
  exists flags. exact Hrun.
Qed.

(** C10: the Verilator builder does not look at [-gui] or [-vpi]: two
    configurations that differ in nothing else give the same result, and
    no command of the list launches the viewer. *)
Theorem C10_verilator_ignores_gui_vpi
    te df sim mn def d inc (v1 v2 : string) (g1 g2 : bool) t (st : state W) :
  create_verilator (mkArgs te df sim mn def v1 g1 d inc) t st
  = create_verilator (mkArgs te df sim mn def v2 g2 d inc) t st
  /\ forall cmds st',
       create_verilator (mkArgs te df sim mn def v1 g1 d inc) t st = (Done cmds, st') ->
       length cmds = 4%nat
       /\ Forall (fun c => Py.startswith c "gtkwave" = false) cmds.
Proof.
  split; [reflexivity|].
  intros cmds st'. destruct (unsupported_extension t) eqn:Hext.
  - rewrite create_verilator_exit by exact Hext. discriminate.
  - destruct (create_verilator_done (mkArgs te df sim mn def v1 g1 d inc) t st Hext)
      as (flags & Hfl & ->).
    intros [= <- <-]. split; [reflexivity|].
    repeat constructor.
    destruct flags as [|c flags]; [discriminate|].
    injection Hfl as ->. reflexivity.
Qed.

End BuilderClaims.

(** ** Test discovery *)

Section Discovery.
Context {W : Type} `{Platform W}.

Lemma elem_of_const_map (e f : string) (l : list string) :
  f ∈ map (fun _ => e) l <-> f = e /\ exists x, x ∈ l.
Proof.
  rewrite list_elem_of_In, in_map_iff. split.
  - intros (x & <- & Hx). split; [reflexivity|].
    exists x. apply list_elem_of_In, Hx.
  - intros (-> & x & Hx). exists x. split; [reflexivity|].
    apply list_elem_of_In, Hx.
Qed.

(** What a directory entry contributes: itself, when it is a regular file
    that matches a pattern. *)
Lemma elem_of_matches_of (w : W) (e f : string) :
  f ∈ matches_of w e <->
  f = e /\ isfile w e = true
  /\ ((exists p, p ∈ supported_prefix /\ Py.startswith e p = true)
      \/ (exists s, s ∈ supported_suffix /\ Py.endswith e s = true)).
Proof.
  unfold matches_of. destruct (isfile w e).
  - rewrite elem_of_app, !elem_of_const_map. split.
    + intros [(-> & s & Hs)|(-> & p & Hp)];
        apply list_elem_of_filter in Hs || apply list_elem_of_filter in Hp;
        (split; [reflexivity|split; [reflexivity|]]).
      * right. exists s. tauto.
      * left. exists p. tauto.
    + intros (-> & _ & [(p & Hp & Hm)|(s & Hs & Hm)]).
      * right. split; [reflexivity|]. exists p.
        apply list_elem_of_filter. tauto.
      * left. split; [reflexivity|]. exists s.
        apply list_elem_of_filter. tauto.
  - split; [intros Hin; inversion Hin|intros (_ & Hf & _); discriminate].
Qed.

Lemma elem_of_collected_from (w : W) (l acc : list string) (f : string) :
  f ∈ fold_left (fun files _file => files ++ matches_of w _file) l acc
  <-> f ∈ acc \/ exists e, e ∈ l /\ f ∈ matches_of w e.
Proof.
  revert acc. induction l as [|x l IH]; intros acc; simpl.
  - split; [auto|]. intros [Hin|(e & He & _)]; [exact Hin|inversion He].
  - rewrite IH, elem_of_app. split.
    + intros [[Hin|Hin]|(e & He & Hin)]; [auto| |].
      * right. exists x. split; [apply list_elem_of_here|exact Hin].
      * right. exists e. split; [apply list_elem_of_further, He|exact Hin].
    + intros [Hin|(e & He & Hin)]; [auto|].
      apply elem_of_cons in He as [->|He]; [auto|].
      right. exists e. auto.
Qed.

Lemma elem_of_find_unit_tests (w : W) (f : string) :
  f ∈ find_unit_tests w <->
  f ∈ listdir w /\ isfile w f = true
  /\ ((exists p, p ∈ supported_prefix /\ Py.startswith f p = true)
      \/ (exists s, s ∈ supported_suffix /\ Py.endswith f s = true)).
Proof.
  unfold find_unit_tests, collected. cbv zeta.
  rewrite elem_of_elements, elem_of_list_to_set, elem_of_collected_from.
  split.
  - intros [Hin|(e & He & Hin)]; [inversion Hin|].
    apply elem_of_matches_of in Hin as (-> & Hf & Hm). auto.
  - intros (Hdir & Hf & Hm). right. exists f. split; [exact Hdir|].
    apply elem_of_matches_of. auto.
Qed.

(** C6: discovery returns the regular files of the working directory whose
    name starts with a supported prefix or ends with a supported suffix,
    those and no others, each of them once, also when a name matches both
    a prefix and a suffix. *)
Theorem C6_find_unit_tests (w : W) :
  (forall f,
     f ∈ find_unit_tests w <->
     f ∈ listdir w /\ isfile w f = true
     /\ ((exists p, p ∈ supported_prefix /\ Py.startswith f p = true)
         \/ (exists s, s ∈ supported_suffix /\ Py.endswith f s = true)))
  /\ NoDup (find_unit_tests w)
  /\ (forall f p s,
        f ∈ listdir w -> isfile w f = true ->
        p ∈ supported_prefix -> Py.startswith f p = true ->
        s ∈ supported_suffix -> Py.endswith f s = true ->
        count_occ String.string_dec (find_unit_tests w) f = 1%nat).
Proof.
  split; [exact (elem_of_find_unit_tests w)|].
  assert (NoDup (find_unit_tests w)) as Hnd by apply NoDup_elements.
  split; [exact Hnd|].
  intros f p s Hdir Hf Hp Hpm Hs Hsm.
  apply NoDup_ListNoDup in Hnd.
  apply (proj1 (List.NoDup_count_occ' String.string_dec _) Hnd).
  apply list_elem_of_In, elem_of_find_unit_tests.
  split; [exact Hdir|]. split; [exact Hf|]. left. exists p. auto.
Qed.

End Discovery.

(** ** Claims about the driver *)

Section DriverClaims.
Context {W : Type} `{Platform W}.

Lemma sync_header_world (s1 s2 : state W) :
  world s1 = world s2 ->
  world (snd (sync_header s1)) = world (snd (sync_header s2)).
Proof.
  destruct s1 as [a1 w1 t1], s2 as [a2 w2 t2]. simpl. intros ->.
  unfold sync_header, bind, get_world. cbn [fst snd world].
  destruct (negb _ || negb _); [|reflexivity].
  unfold print, emit, system, ret. cbn [fst snd world].
  destruct (os_system _ w2). reflexivity.
Qed.

Lemma run_snd (st : state W) : snd (run st) = snd (svut_main st).
Proof. unfold run. destruct (svut_main st) as [[[]|code] st']; reflexivity. Qed.

Lemma ARGS_build_cmds t (st : state W) :
  ARGS (snd (build_cmds t st))
  = set_simulator (Py.lower (simulator (ARGS st))) (ARGS st).
Proof.
  rewrite build_cmds_spec. cbv zeta.
  destruct (selects_icarus _); [apply keeps_create_iverilog|].
  destruct (Py.contains "verilator" _); [apply keeps_create_verilator|reflexivity].
Qed.

Lemma ARGS_iteration t (st : state W) :
  ARGS (snd (iteration t st))
  = set_simulator (Py.lower (simulator (ARGS st))) (ARGS st).
Proof.
  unfold iteration. rewrite bind_keeps_r; [apply ARGS_build_cmds|].
  intros CMDS. keeps.
Qed.

(** A dry run of the loop body: the header copy and the tag lookup, the
    two lines of output, and [sys.exit(0)]. *)
Lemma iteration_dry (st st1 : state W) t CMDS :
  dry (ARGS st) = true ->
  build_cmds t st = (Done CMDS, st1) ->
  exists tag added,
    iteration t st
    = (Exit 0,
       mkState (ARGS st1) (world (snd (sync_header st)))
               (trace st ++ added
                  ++ [Print ("SVUT " +:+ tag +:+ " dry-run: "); PrintCmds CMDS]))
    /\ (Timer ∉ added)
    /\ (forall c, c ∈ CMDS -> System c ∉ added).
Proof.
  intros Hdry Hbuild.
  destruct (build_cmds_done t st st1 CMDS Hbuild) as [Hst1 Hcp].
  unfold iteration, bind at 1. rewrite Hbuild. unfold bind at 1.
  destruct (sync_header_spec st1) as (a1 & Hs & Ha1). rewrite Hs.
  unfold bind at 1.
  match goal with |- context [get_git_tag ?s] =>
    destruct (get_git_tag_spec s) as (tag & a2 & Hg & Ha2) end.
  rewrite Hg. unfold bind at 1, get_ARGS. cbn [fst snd ARGS world trace].
  assert (dry (ARGS st1) = true) as -> by (rewrite Hst1; exact Hdry).
  exists tag, (a1 ++ a2). split; [|split].
  - unfold bind, print, emit, sys_exit. cbn [fst snd ARGS world trace].
    f_equal. f_equal.
    + apply sync_header_world. rewrite Hst1. reflexivity.
    + rewrite Hst1. cbn [trace]. rewrite <- !app_assoc. reflexivity.
  - intros Hin. apply elem_of_app in Hin as [Hin|Hin].
    + destruct Ha1 as [->| ->]; [inversion Hin|].
      repeat (apply elem_of_cons in Hin as [Hin|Hin]; [discriminate|]).
      inversion Hin.
    + destruct Ha2 as [->| ->]; [inversion Hin|].
      repeat (apply elem_of_cons in Hin as [Hin|Hin]; [discriminate|]).
      inversion Hin.
  - intros c Hc Hin.
    assert (first_char c <> Some "c"%char) as Hfc
      by (exact (proj1 (Forall_forall _ _) Hcp c Hc)).
    apply elem_of_app in Hin as [Hin|Hin].
    + destruct Ha1 as [->| ->]; [inversion Hin|].
      apply elem_of_cons in Hin as [Hin|Hin]; [discriminate|].
      apply elem_of_cons in Hin as [Hin|Hin]; [|inversion Hin].
      injection Hin as Hcp'. apply Hfc. rewrite Hcp'. reflexivity.
    + destruct Ha2 as [->| ->]; [inversion Hin|].
      apply elem_of_cons in Hin as [Hin|Hin]; [discriminate|inversion Hin].
Qed.

Lemma dry_resolved (st : state W) : dry (ARGS (resolved st)) = dry (ARGS st).
Proof. unfold resolved. destruct (test (ARGS st)); reflexivity. Qed.

(** C4: in a dry run the loop body, at every test for which the command
    list is built, prints the version header and the list and exits with
    code 0, and so does the program at the test it processes. Before that
    it has only brought [svut_h.sv] up to date and looked the tag up: no
    timer is read, no command of the list is run, and the world is the one
    the header copy leaves. *)
Theorem C4_dry_run :
  (forall (st st1 : state W) t CMDS,
     dry (ARGS st) = true ->
     build_cmds t st = (Done CMDS, st1) ->
     exists tag added,
       iteration t st
       = (Exit 0,
          mkState (ARGS st1) (world (snd (sync_header st)))
                  (trace st ++ added
                     ++ [Print ("SVUT " +:+ tag +:+ " dry-run: "); PrintCmds CMDS]))
       /\ (Timer ∉ added)
       /\ (forall c, c ∈ CMDS -> System c ∉ added))
  /\ (forall (st st1 : state W) t rest CMDS,
        dry (ARGS st) = true ->
        resolved_tests st = t :: rest ->
        build_cmds t (resolved st) = (Done CMDS, st1) ->
        exists tag added,
          run st
          = (0, mkState (ARGS st1) (world (snd (sync_header st)))
                        (trace st ++ added
                           ++ [Print ("SVUT " +:+ tag +:+ " dry-run: "); PrintCmds CMDS]))
          /\ (Timer ∉ added)
          /\ (forall c, c ∈ CMDS -> System c ∉ added)).
Proof.
  split; [exact iteration_dry|].
  intros st st1 t rest CMDS Hdry Hres Hbuild.
  rewrite <- dry_resolved in Hdry.
  destruct (iteration_dry (resolved st) st1 t CMDS Hdry Hbuild)
    as (tag & added & Hit & Htimer & Hcmds).
  exists tag, added. split; [|split; assumption].
  unfold run. rewrite (svut_main_first t rest st Hres), Hit.
  rewrite trace_resolved.
  rewrite (sync_header_world (resolved st) st (world_resolved st)).
  reflexivity.
Qed.

(** C3, as the code has it: the driver rewrites two fields of the
    configuration, the test list (the discovered files replace the
    default) and the simulator name (lowered once a test is processed);
    the seven other fields keep their parsed values to the end of the run,
    and the builders and the command loop change no field at all. *)
Theorem C3_configuration_frame (st : state W) :
  let a := ARGS st in
  let a' := ARGS (snd (run st)) in
  (dotfile a' = dotfile a /\ main a' = main a /\ define a' = define a
   /\ vpi a' = vpi a /\ gui a' = gui a /\ dry a' = dry a
   /\ include a' = include a)
  /\ test a' = Tests (resolved_tests st)
  /\ simulator a' = match resolved_tests st with
                    | [] => simulator a
                    | _ :: _ => Py.lower (simulator a)
                    end
  /\ (forall args t, keeps_ARGS (create_iverilog (W := W) args t))
  /\ (forall args t, keeps_ARGS (create_verilator (W := W) args t))
  /\ (forall CMDS, keeps_ARGS (run_cmds (W := W) CMDS)).
Proof.
  cbv zeta. rewrite run_snd.
  assert (ARGS (snd (svut_main st))
          = match resolved_tests st with
            | [] => ARGS (resolved st)
            | _ :: _ => set_simulator (Py.lower (simulator (ARGS (resolved st))))
                                      (ARGS (resolved st))
            end) as ->.
  { destruct (resolved_tests st) as [|t rest] eqn:Hres.
    - rewrite (svut_main_none st Hres). reflexivity.
    - rewrite (svut_main_first t rest st Hres). apply ARGS_iteration. }
  assert (test (ARGS (resolved st)) = Tests (resolved_tests st)) as Htest.
  { unfold resolved, resolved_tests.
    destruct (test (ARGS st)) eqn:E; [reflexivity|exact E]. }
  repeat split; auto with frame;
    try (destruct (resolved_tests st); cbn; try exact Htest;
         unfold resolved; destruct (test (ARGS st)); reflexivity).
Qed.

End DriverClaims.

(** ** Concrete runs *)

Section Runs.

(** Before the set removes them, a name that matches a prefix and a suffix
    is in [files] twice. *)
Example collected_twice :
  @collected _ mixed_platform [] = ["tb_x_tb.v"; "tb_x_tb.v"]
  /\ @find_unit_tests _ mixed_platform [] = ["tb_x_tb.v"].
Proof. split; vm_compute; reflexivity. Qed.

(** C1: two tests, the simulation of the first one fails and every command
    of the second one would succeed. The program exits with code 1: the
    loop body ends in [sys.exit], so the exit code is the one of the first
    test and the second test is never reached. *)
Theorem C1_exit_code_is_first_test :
  let st := start two_tests_args in
  let st' := snd (@run _ failing_run_platform st) in
  fst (@run _ failing_run_platform st) = 1
  /\ world st' = ["rm -f icarus.out";
                  "iverilog -g2012 -Wall -o icarus.out tb_a.v ";
                  "vvp icarus.out "]
  /\ Print "ERROR: Command failed: vvp icarus.out " ∈ trace st'
  /\ exists CMDS,
       @create_iverilog _ failing_run_platform (ARGS st') "tb_b.v" st'
       = (Done CMDS, st')
       /\ fst (@run_cmds _ failing_run_platform CMDS st') = Done 0.
Proof.
  cbv zeta. split; [vm_compute; reflexivity|].
  split; [vm_compute; reflexivity|]. split.
  - apply list_elem_of_In. vm_compute. tauto.
  - eexists. split; vm_compute; reflexivity.
Qed.

(** C2: two tests, the first one does not compile. The diagnostic names
    the compilation, the simulation of the first test is skipped, and the
    program exits there: no command of the second test is run. *)
Theorem C2_second_test_not_attempted :
  let st := start two_tests_args in
  let st' := snd (@run _ failing_compile_platform st) in
  fst (@run _ failing_compile_platform st) = 1
  /\ world st' = ["rm -f icarus.out";
                  "iverilog -g2012 -Wall -o icarus.out tb_a.v "]
  /\ Print "ERROR: Command failed: iverilog -g2012 -Wall -o icarus.out tb_a.v "
       ∈ trace st'
  /\ Forall (fun e => e <> System "iverilog -g2012 -Wall -o icarus.out tb_b.v ")
            (trace st').
Proof.
  cbv zeta. split; [vm_compute; reflexivity|].
  split; [vm_compute; reflexivity|]. split.
  - apply list_elem_of_In. vm_compute. tauto.
  - vm_compute. repeat (constructor; [discriminate|]). constructor.
Qed.

(** C3 fails as it is stated: the run lowers the simulator name and
    stores the discovered tests in the configuration. *)
Lemma C3_configuration_is_rewritten :
  let st := start (mkArgs AllTests ["files.f"] "Icarus" "sim_main.cpp"
                          "" "" false false []) in
  ARGS (snd (@run _ adder_platform st)) <> ARGS st.
Proof. vm_compute. discriminate. Qed.

(** C4 in a directory that holds [tb_adder.sv] only. *)
Lemma C4_dry_run_witness :
  exists tag added,
    @run _ adder_platform (start dry_args)
    = (0, mkState (set_test (Tests ["tb_adder.sv"]) dry_args)
            (world (snd (@sync_header _ adder_platform (start dry_args))))
            ([] ++ added
                ++ [Print ("SVUT " +:+ tag +:+ " dry-run: ");
                    PrintCmds ["rm -f icarus.out";
                               "iverilog -g2012 -Wall -o icarus.out tb_adder.sv ";
                               "vvp icarus.out "]]))
    /\ (Timer ∉ added)
    /\ (forall c,
          c ∈ ["rm -f icarus.out";
               "iverilog -g2012 -Wall -o icarus.out tb_adder.sv ";
               "vvp icarus.out "] -> System c ∉ added).
Proof.
  apply (proj2 (@C4_dry_run _ adder_platform) (start dry_args)
           (mkState (set_test (Tests ["tb_adder.sv"]) dry_args) [] [])
           "tb_adder.sv" []);
    vm_compute; reflexivity.
Defined.

(** C5 at a VHDL file. *)
Lemma C5_unsupported_extension_witness :
  fst (@run _ adder_platform
         (start (mkArgs (Tests ["tb_adder.vhd"; "tb_adder.sv"]) ["files.f"]
                        "Verilator" "sim_main.cpp" "" "" false false []))) = 1.
Proof.
  apply (proj2 (@C5_unsupported_extension _ adder_platform "tb_adder.vhd"
                  eq_refl eq_refl) _ ["tb_adder.sv"]);
    reflexivity.
Defined.

(** C6 at a name that matches [tb_] and [_tb.v]. *)
Lemma C6_find_unit_tests_witness :
  count_occ String.string_dec (@find_unit_tests _ mixed_platform []) "tb_x_tb.v"
  = 1%nat.
Proof.
  apply (proj2 (proj2 (@C6_find_unit_tests _ mixed_platform []))
           "tb_x_tb.v" "tb_" "_tb.v");
    try reflexivity; apply list_elem_of_In; vm_compute; tauto.
Defined.

(** C8 where [wave.gtkw] exists and where it does not. *)
Lemma C8_gui_viewer_witness :
  (exists cmds,
     @create_iverilog _ mixed_platform gui_args "tb_x_tb.v" (start gui_args)
     = (Done cmds, start gui_args)
     /\ last cmds = Some "gtkwave *.lxt wave.gtkw &")
  /\ (exists cmds,
        @create_iverilog _ adder_platform gui_args "tb_x_tb.v" (start gui_args)
        = (Done cmds, start gui_args)
        /\ last cmds = Some "gtkwave *.lxt &").
Proof.
  split.
  - apply (@C8_gui_viewer _ mixed_platform gui_args "tb_x_tb.v" (start gui_args));
      reflexivity.
  - apply (@C8_gui_viewer _ adder_platform gui_args "tb_x_tb.v" (start gui_args));
      reflexivity.
Defined.

(** C9 at the path of the example. *)
Lemma C9_verilator_module_name_witness :
  exists flags,
    @create_verilator _ adder_platform default_args "./dir/my_test.sv"
      (start default_args)
    = (Done ["rm -fr build";
             (flags +:+ "-cc --exe --build -j --top-module my_test ")
               +:+ "./dir/my_test.sv sim_main.cpp";
             "make -j -C build -f Vmy_test.mk Vmy_test";
             "build/Vmy_test"], start default_args).
Proof.
  apply (proj2 (proj2 (@C9_verilator_module_name _ adder_platform))
           default_args "./dir/my_test.sv" (start default_args)).
  reflexivity.
Defined.

(** C10 at a command line with [-gui] and [-vpi]. *)
Lemma C10_verilator_ignores_gui_vpi_witness :
  length ["rm -fr build";
          "verilator -Wall --trace --Mdir build +1800-2017ext+sv +1800-2005ext+v -Wno-STMTDLY -Wno-UNUSED -Wno-UNDRIVEN -Wno-PINCONNECTEMPTY -Wpedantic -Wno-VARHIDDEN -Wno-lint -cc --exe --build -j --top-module tb_a tb_a.v sim_main.cpp";
          "make -j -C build -f Vtb_a.mk Vtb_a"; "build/Vtb_a"] = 4%nat
  /\ Forall (fun c => Py.startswith c "gtkwave" = false)
       ["rm -fr build";
        "verilator -Wall --trace --Mdir build +1800-2017ext+sv +1800-2005ext+v -Wno-STMTDLY -Wno-UNUSED -Wno-UNDRIVEN -Wno-PINCONNECTEMPTY -Wpedantic -Wno-VARHIDDEN -Wno-lint -cc --exe --build -j --top-module tb_a tb_a.v sim_main.cpp";
        "make -j -C build -f Vtb_a.mk Vtb_a"; "build/Vtb_a"].
Proof.
  apply (proj2 (@C10_verilator_ignores_gui_vpi _ adder_platform
                  (Tests ["tb_a.v"]) ["files.f"] "verilator" "sim_main.cpp" ""
                  false [] "-M. -mMyVPI" "" true false "tb_a.v"
                  (mkState default_args [] []))
          _ (mkState default_args [] [])).
  vm_compute. reflexivity.
Defined.

End Runs.

(** * Further properties of the code *)

(** ** Define strings, extensions and module names *)

Section MoreStrings.

Lemma split_app_any c a b :
  Py.split c (a +:+ String c b) = Py.split c a ++ Py.split c b.
Proof.
  induction a as [|d a IH].
  - rewrite str_app_nil_l. simpl. rewrite Ascii.eqb_refl. reflexivity.
  - rewrite str_app_cons. simpl. rewrite IH.
    destruct (Ascii.eqb d c); [reflexivity|].
    destruct (Py.split c a) as [|h tl] eqn:Hsp;
      [destruct (split_not_nil c a Hsp)|reflexivity].
Qed.

Lemma define_flags_app l1 l2 :
  define_flags (l1 ++ l2) = define_flags l1 +:+ define_flags l2.
Proof.
  induction l1 as [|d l1 IH]; [reflexivity|].
  simpl. rewrite IH. destruct (Py.truthy d); [|reflexivity].
  rewrite !str_app_cons, str_app_nil_l, !str_app_assoc. reflexivity.
Qed.

(** Whatever the string, the flags are those of its pieces. *)
Lemma get_defines_split s :
  get_defines s = define_flags (Py.split ";" s).
Proof.
  unfold get_defines. destruct s as [|c s]; [reflexivity|].
  cbn [Py.truthy negb]. rewrite fold_add_define. apply str_app_nil_l.
Qed.

(** Two define strings put together with a semicolon give the flags of
    the first followed by the flags of the second; a semicolon at either
    end changes nothing. *)
Theorem get_defines_app a b :
  get_defines (a +:+ ";" +:+ b) = get_defines a +:+ get_defines b
  /\ get_defines (a +:+ ";") = get_defines a
  /\ get_defines (";" +:+ b) = get_defines b.
Proof.
  assert (forall x y, get_defines (x +:+ ";" +:+ y)
                      = get_defines x +:+ get_defines y) as Happ.
  { intros x y. rewrite !get_defines_split.
    rewrite str_app_cons, str_app_nil_l, split_app_any.
    apply define_flags_app. }
  split; [apply Happ|]. split.
  - rewrite <- (str_app_nil_r (a +:+ ";")), str_app_assoc, Happ.
    apply str_app_nil_r.
  - apply (Happ "" b).
Qed.

(** The extension check accepts the names that are something followed by
    [.v] or by [.sv], the bare [.v] and [.sv] included, and no others. *)
Theorem supported_extension_iff t :
  unsupported_extension t = false
  <-> (exists p, t = p +:+ ".v") \/ (exists p, t = p +:+ ".sv").
Proof.
  rewrite unsupported_extension_endswith, andb_false_iff, !negb_false_iff.
  rewrite !endswith_spec. reflexivity.
Qed.

(** A name found through one of the suffixes passes the extension check
    of the builders; a name found through a prefix need not. *)
Theorem suffix_match_has_supported_extension :
  (forall f s,
     s ∈ supported_suffix -> Py.endswith f s = true ->
     unsupported_extension f = false)
  /\ (exists f p,
        p ∈ supported_prefix /\ Py.startswith f p = true
        /\ unsupported_extension f = true).
Proof.
  split.
  - intros f s Hs [p ->]%endswith_spec. apply supported_extension_iff.
    assert (Py.endswith s ".v" = true \/ Py.endswith s ".sv" = true) as Hext.
    { unfold supported_suffix in Hs.
      repeat (apply elem_of_cons in Hs as [->|Hs];
              [first [left; reflexivity|right; reflexivity]|]).
      inversion Hs. }
    destruct Hext as [[q ->]%endswith_spec|[q ->]%endswith_spec];
      [left|right]; exists (p +:+ q); symmetry; apply str_app_assoc.
  - exists "tb_notes.txt", "tb_". split; [apply list_elem_of_here|].
    split; reflexivity.
Qed.

Lemma contains_char_app c a b :
  Py.contains (String c "") (a +:+ b)
  = Py.contains (String c "") a || Py.contains (String c "") b.
Proof.
  induction a as [|d a IH]; [reflexivity|].
  rewrite str_app_cons, !contains_char_cons, IH. apply orb_assoc.
Qed.

Lemma basename_no_slash p :
  Py.contains "/" p = false -> Py.basename p = p.
Proof.
  destruct p as [|c r]; [reflexivity|].
  rewrite contains_char_cons. intros [Hc Hr]%orb_false_iff.
  simpl. rewrite Hr, Hc. reflexivity.
Qed.

Lemma basename_app dir base :
  Py.contains "/" base = false ->
  Py.basename (dir +:+ "/" +:+ base) = base.
Proof.
  intros Hbase. induction dir as [|c d IH].
  - rewrite str_app_nil_l, str_app_cons, str_app_nil_l. simpl.
    rewrite Hbase. reflexivity.
  - rewrite str_app_cons. simpl Py.basename.
    assert (Py.contains "/" (d +:+ "/" +:+ base) = true) as ->; [|exact IH].
    rewrite contains_char_app, str_app_cons, contains_char_cons.
    rewrite Ascii.eqb_refl. apply orb_true_r.
Qed.

(** The module name read back: of a path made of a directory, a name
    without dot and an extension, [testname_of] is the name, also when the
    name is empty (a file that starts with a dot) and when there is no
    directory or no extension. *)
Theorem testname_of_path dir name ext :
  Py.contains "/" name = false ->
  Py.contains "." name = false ->
  Py.contains "/" ext = false ->
  testname_of (dir +:+ "/" +:+ name +:+ "." +:+ ext) = name
  /\ testname_of (name +:+ "." +:+ ext) = name
  /\ testname_of (dir +:+ "/" +:+ name) = name
  /\ testname_of name = name.
Proof.
  intros Hslash Hdot Hext.
  assert (Py.contains "/" (name +:+ "." +:+ ext) = false) as Hbase.
  { rewrite contains_char_app, Hslash, str_app_cons, contains_char_cons.
    rewrite str_app_nil_l, Hext. reflexivity. }
  assert (Py.head (Py.split "." (name +:+ "." +:+ ext)) = name) as Hhead.
  { rewrite str_app_cons, str_app_nil_l, split_app_sep by exact Hdot.
    reflexivity. }
  assert (Py.head (Py.split "." name) = name) as Hhead'.
  { rewrite split_no_sep by exact Hdot. reflexivity. }
  unfold testname_of. repeat split.
  - rewrite basename_app by exact Hbase. exact Hhead.
  - rewrite basename_no_slash by exact Hbase. exact Hhead.
  - rewrite basename_app by exact Hslash. exact Hhead'.
  - rewrite basename_no_slash by exact Hslash. exact Hhead'.
Qed.

(** At the path of a hidden file the module name is empty. *)
Lemma testname_of_path_witness :
  testname_of ("./dir" +:+ "/" +:+ "" +:+ "." +:+ "hidden.sv") = "".
Proof.
  apply (testname_of_path "./dir" "" "hidden.sv"); reflexivity.
Defined.

End MoreStrings.

(** ** The command lists in closed form *)

Section ClosedForms.
Context {W : Type} `{Platform W}.

Lemma commands_run_app tr1 tr2 :
  commands_run (tr1 ++ tr2) = commands_run tr1 ++ commands_run tr2.
Proof.
  induction tr1 as [|e tr1 IH]; [reflexivity|].
  destruct e; simpl; rewrite IH; reflexivity.
Qed.

Lemma existing_dotfiles_from (w : W) dots acc :
  fold_left (fun dotfiles dot =>
               if isfile w dot then dotfiles +:+ dot +:+ " " else dotfiles)
            dots acc
  = acc +:+ listed_dotfiles w dots.
Proof.
  unfold listed_dotfiles. revert acc.
  induction dots as [|d dots IH]; intros acc; simpl.
  - rewrite str_app_nil_r. reflexivity.
  - rewrite IH. destruct (isfile w d) eqn:Hd.
    + rewrite filter_cons_True by exact Hd. simpl.
      rewrite !str_app_assoc. reflexivity.
    + rewrite filter_cons_False by congruence. reflexivity.
Qed.

Lemma truthy_listed_dotfiles (w : W) dots :
  Py.truthy (listed_dotfiles w dots) = existsb (isfile w) dots.
Proof.
  unfold listed_dotfiles. induction dots as [|d dots IH]; [reflexivity|].
  simpl. destruct (isfile w d) eqn:Hd.
  - rewrite filter_cons_True by exact Hd. simpl. destruct d; reflexivity.
  - rewrite filter_cons_False by congruence. exact IH.
Qed.

(** The dot files: the [-f] part lists those that exist, in the order of
    the command line, and is left out altogether when none of them
    exists. *)
Theorem add_dotfiles_closed (w : W) args cmd :
  add_dotfiles w args cmd = cmd +:+ dotfile_flags w (dotfile args)
  /\ (Forall (fun dot => isfile w dot = false) (dotfile args) ->
      add_dotfiles w args cmd = cmd).
Proof.
  assert (add_dotfiles w args cmd = cmd +:+ dotfile_flags w (dotfile args)) as Heq.
  { unfold add_dotfiles, dotfile_flags.
    destruct (dotfile args) as [|d dots] eqn:Hdots.
    - rewrite str_app_nil_r. reflexivity.
    - cbv zeta. unfold existing_dotfiles.
      rewrite existing_dotfiles_from, str_app_nil_l, truthy_listed_dotfiles.
      destruct (existsb _ _); [reflexivity|].
      rewrite str_app_nil_r. reflexivity. }
  split; [exact Heq|].
  intros Hnone. rewrite Heq. clear Heq. unfold dotfile_flags.
  assert (existsb (isfile w) (dotfile args) = false) as ->.
  { induction Hnone as [|d dots Hd _ IH]; [reflexivity|].
    simpl. rewrite Hd. exact IH. }
  apply str_app_nil_r.
Qed.

Lemma with_defines base d :
  (if Py.truthy d then base +:+ get_defines d else base)
  = base +:+ get_defines d.
Proof. destruct d; [rewrite str_app_nil_r|]; reflexivity. Qed.

Lemma incdirs_from incs cmd :
  fold_left (fun cmd inc => cmd +:+ "+incdir+" +:+ inc +:+ " ") incs cmd
  = cmd +:+ verilator_includes incs.
Proof.
  revert cmd. induction incs as [|inc incs IH]; intros cmd; simpl.
  - rewrite str_app_nil_r. reflexivity.
  - rewrite IH, !str_app_assoc. reflexivity.
Qed.

(** The Icarus list for a test with a supported extension: the
    compilation is the fixed flags, the defines, the dot files, the
    include directories and the test, in this order; the simulation has
    the VPI arguments before [icarus.out] and [-lxt;] after it with
    [-gui]; without [-gui] there is no fourth command. *)
Theorem create_iverilog_closed args t (st : state W) :
  unsupported_extension t = false ->
  create_iverilog args t st
  = (Done (["rm -f icarus.out";
            "iverilog -g2012 -Wall -o icarus.out "
              +:+ get_defines (define args)
              +:+ dotfile_flags (world st) (dotfile args)
              +:+ icarus_includes (include args)
              +:+ t +:+ " ";
            "vvp " +:+ (if Py.truthy (vpi args) then vpi args +:+ " " else "")
              +:+ "icarus.out " +:+ (if gui args then "-lxt;" else "")]
           ++ (if gui args then
                 [if isfile (world st) "wave.gtkw"
                  then "gtkwave *.lxt wave.gtkw &"
                  else "gtkwave *.lxt &"]
               else [])), st).
Proof.
  intros Hext. unfold create_iverilog, bind, get_world. cbv zeta.
  rewrite Hext. cbn [fst snd]. cbv beta iota.
  rewrite with_defines, (proj1 (add_dotfiles_closed _ _ _)).
  assert (forall x : string,
            match include args with
            | [] => x
            | _ :: _ => x +:+ "-I " +:+ Py.join " " (include args) +:+ " "
            end = x +:+ icarus_includes (include args)) as ->.
  { intros x. unfold icarus_includes.
    destruct (include args); [rewrite str_app_nil_r|]; reflexivity. }
  rewrite !str_app_assoc.
  destruct (gui args), (Py.truthy (vpi args)), (isfile (world st) "wave.gtkw");
    unfold ret; rewrite ?str_app_assoc; reflexivity.
Qed.

(** The Verilator list for a test with a supported extension: the
    compilation is the fixed flags, the defines, the dot files, one
    [+incdir+] per include directory, the module name, the test and the
    C++ main file, in this order. *)
Theorem create_verilator_closed args t (st : state W) :
  unsupported_extension t = false ->
  create_verilator args t st
  = (Done ["rm -fr build";
           "verilator -Wall --trace --Mdir build +1800-2017ext+sv +1800-2005ext+v -Wno-STMTDLY -Wno-UNUSED -Wno-UNDRIVEN -Wno-PINCONNECTEMPTY -Wpedantic -Wno-VARHIDDEN -Wno-lint "
             +:+ get_defines (define args)
             +:+ dotfile_flags (world st) (dotfile args)
             +:+ verilator_includes (include args)
             +:+ "-cc --exe --build -j --top-module " +:+ testname_of t +:+ " "
             +:+ t +:+ " " +:+ main args;
           "make -j -C build -f V" +:+ testname_of t +:+ ".mk V" +:+ testname_of t;
           "build/V" +:+ testname_of t], st).
Proof.
  intros Hext. unfold create_verilator, bind, get_world. cbv zeta.
  rewrite Hext. cbn [fst snd]. cbv beta iota.
  rewrite with_defines, (proj1 (add_dotfiles_closed _ _ _)), incdirs_from.
  unfold ret. rewrite !str_app_assoc. reflexivity.
Qed.

(** The builders only build strings: whatever the test, neither of them
    runs a command or changes the world, and the only thing either can
    print is the extension error. *)
Theorem builders_only_build args t (st : state W) :
  (world (snd (create_iverilog args t st)) = world st
   /\ (trace (snd (create_iverilog args t st)) = trace st
       \/ trace (snd (create_iverilog args t st))
          = trace st ++ [Print extension_error]))
  /\ (world (snd (create_verilator args t st)) = world st
      /\ (trace (snd (create_verilator args t st)) = trace st
          \/ trace (snd (create_verilator args t st))
             = trace st ++ [Print extension_error])).
Proof.
  destruct (unsupported_extension t) eqn:Hext.
  - rewrite create_iverilog_exit, create_verilator_exit by exact Hext.
    cbn [snd world trace]. auto.
  - rewrite create_iverilog_closed, create_verilator_closed by exact Hext.
    cbn [snd]. auto.
Qed.

End ClosedForms.

(** ** The command loop and the whole run *)

Section WholeRun.
Context {W : Type} `{Platform W}.

(** The commands of a test are run in the order of the list, each in the
    world the one before left. Either all of them return 0, and so does
    the loop; or the loop stops at the first that does not, returns 1 and
    ends on the diagnostic that names it, and no later command is run. *)
Theorem run_cmds_in_order CMDS (st : state W) :
  exists r st' ran,
    run_cmds CMDS st = (Done r, st')
    /\ commands_run (trace st') = commands_run (trace st) ++ ran
    /\ world st' = world_after ran (world st)
    /\ ((r = 0 /\ ran = CMDS)
        \/ (r = 1
            /\ exists pre c post,
                 CMDS = pre ++ c :: post
                 /\ ran = pre ++ [c]
                 /\ fst (os_system c (world_after pre (world st))) <> 0
                 /\ last (trace st')
                    = Some (Print ("ERROR: Command failed: " +:+ c)))).
Proof.
  revert st. induction CMDS as [|c rest IH]; intros st.
  - exists 0, st, []. split; [reflexivity|]. rewrite app_nil_r. auto.
  - destruct (Z.eq_dec (fst (os_system c (world st))) 0) as [Hok|Hfail].
    + rewrite (run_cmds_ok c rest st Hok).
      match goal with |- context [run_cmds rest ?s] =>
        destruct (IH s) as (r & st' & ran & Hrun & Htr & Hw & Hcase) end.
      exists r, st', (c :: ran). split; [exact Hrun|].
      cbn [trace world] in Htr, Hw, Hcase.
      split; [|split; [exact Hw|]].
      * rewrite Htr, commands_run_app. simpl. rewrite <- app_assoc. reflexivity.
      * destruct Hcase as [[-> ->]|(-> & pre & c' & post & -> & -> & Hc' & Hlast)];
          [left; auto|right].
        split; [reflexivity|]. exists (c :: pre), c', post. auto.
    + rewrite (run_cmds_fail c rest st Hfail).
      eexists 1, _, [c]. split; [reflexivity|]. cbn [trace world].
      split; [|split; [reflexivity|right]].
      * rewrite commands_run_app. reflexivity.
      * split; [reflexivity|]. exists [], c, rest.
        repeat split; [exact Hfail|].
        change [Print c; System c; Print ("ERROR: Command failed: " +:+ c)]
          with ([Print c; System c] ++ [Print ("ERROR: Command failed: " +:+ c)]).
        rewrite app_assoc. apply last_snoc.
Qed.

Lemma print_event_spec what tag (st : state W) :
  print_event what tag st
  = (Done 0,
     mkState (ARGS st) (world st)
             (trace st ++ banner what tag (strftime_now (world st)))).
Proof.
  unfold print_event, bind, print, emit, get_world, ret, banner.
  cbn [fst snd ARGS world trace]. rewrite <- !app_assoc. reflexivity.
Qed.

(** A run of the loop body that is not dry. *)
Lemma iteration_real (st st1 : state W) t CMDS :
  dry (ARGS st) = false ->
  build_cmds t st = (Done CMDS, st1) ->
  exists tag added r s1,
    run_cmds CMDS
      (mkState (ARGS st1) (world (snd (sync_header st)))
         (trace st ++ added
            ++ Timer :: banner "Start" tag
                          (strftime_now (world (snd (sync_header st))))))
    = (Done r, s1)
    /\ (r = 0 \/ r = 1)
    /\ iteration t st
       = (Exit r,
          mkState (ARGS s1) (world s1)
                  (trace s1 ++ Timer :: PrintElapsed
                     :: banner "Stop" tag (strftime_now (world s1))))
    /\ (Timer ∉ added)
    /\ (commands_run added = []
        \/ commands_run added
           = ["cp " +:+ (SCRIPTDIR +:+ "/svut_h.sv") +:+ " " +:+ getcwd (world st)]).
Proof.
  intros Hdry Hbuild.
  destruct (build_cmds_done t st st1 CMDS Hbuild) as [Hst1 _].
  unfold iteration, bind at 1. rewrite Hbuild. unfold bind at 1.
  destruct (sync_header_spec st1) as (a1 & Hs & Ha1). rewrite Hs.
  unfold bind at 1.
  match goal with |- context [get_git_tag ?s] =>
    destruct (get_git_tag_spec s) as (tag & a2 & Hg & Ha2) end.
  rewrite Hg. unfold bind at 1, get_ARGS. cbn [fst snd ARGS world trace].
  assert (dry (ARGS st1) = false) as -> by (rewrite Hst1; exact Hdry).
  assert (world (snd (sync_header st1)) = world (snd (sync_header st))) as Hw
    by (apply sync_header_world; rewrite Hst1; reflexivity).
  assert (trace st1 = trace st) as Ht by (rewrite Hst1; reflexivity).
  rewrite Hw, Ht.
  exists tag, (a1 ++ a2).
  unfold bind at 1, timer, emit. cbn [fst snd ARGS world trace].
  unfold bind at 1. rewrite print_event_spec. cbn [fst snd ARGS world trace].
  unfold bind at 1. rewrite <- !app_assoc. cbn [app].
  match goal with |- context [run_cmds CMDS ?s] =>
    destruct (run_cmds_returns CMDS s) as (r & s1 & Hrun & Hr) end.
  exists r, s1. rewrite Hrun.
  split; [reflexivity|]. split; [exact Hr|]. split; [|split].
  - unfold bind at 1. cbn [fst snd ARGS world trace].
    unfold bind at 1. cbn [fst snd ARGS world trace].
    unfold bind at 1. rewrite print_event_spec.
    cbn [fst snd ARGS world trace]. unfold sys_exit.
    rewrite <- !app_assoc. reflexivity.
  - intros Hin. apply elem_of_app in Hin as [Hin|Hin].
    + destruct Ha1 as [->| ->]; [inversion Hin|].
      repeat (apply elem_of_cons in Hin as [Hin|Hin]; [discriminate|]).
      inversion Hin.
    + destruct Ha2 as [->| ->]; [inversion Hin|].
      repeat (apply elem_of_cons in Hin as [Hin|Hin]; [discriminate|]).
      inversion Hin.
  - assert (world st1 = world st) as Hw1 by (rewrite Hst1; reflexivity).
    rewrite commands_run_app, Hw1 in *.
    destruct Ha1 as [->| ->], Ha2 as [->| ->]; rewrite ?Hw1; auto.
Qed.

(** A run that is not dry: after the header copy and the tag lookup the
    timer is read and the start banner printed, the commands are run, and
    then, whether a command failed or not, the timer is read again and the
    elapsed time and the stop banner are printed; the exit code is the
    result of the command loop. *)
Theorem real_run (st st1 : state W) t rest CMDS :
  dry (ARGS st) = false ->
  resolved_tests st = t :: rest ->
  build_cmds t (resolved st) = (Done CMDS, st1) ->
  exists tag added r s1,
    run_cmds CMDS
      (mkState (ARGS st1) (world (snd (sync_header st)))
         (trace st ++ added
            ++ Timer :: banner "Start" tag
                          (strftime_now (world (snd (sync_header st))))))
    = (Done r, s1)
    /\ (r = 0 \/ r = 1)
    /\ run st
       = (r, mkState (ARGS s1) (world s1)
                     (trace s1 ++ Timer :: PrintElapsed
                        :: banner "Stop" tag (strftime_now (world s1))))
    /\ (Timer ∉ added)
    /\ (commands_run added = []
        \/ commands_run added
           = ["cp " +:+ (SCRIPTDIR +:+ "/svut_h.sv") +:+ " " +:+ getcwd (world st)]).
Proof.
  intros Hdry Hres Hbuild. rewrite <- dry_resolved in Hdry.
  destruct (iteration_real (resolved st) st1 t CMDS Hdry Hbuild)
    as (tag & added & r & s1 & Hrun & Hr & Hit & Htimer & Hsync).
  rewrite trace_resolved in Hrun.
  rewrite (sync_header_world (resolved st) st (world_resolved st)) in Hrun.
  rewrite world_resolved in Hsync.
  exists tag, added, r, s1. split; [exact Hrun|]. split; [exact Hr|].
  split; [|split; [exact Htimer|exact Hsync]].
  unfold run. rewrite (svut_main_first t rest st Hres), Hit. reflexivity.
Qed.

(** What the exit code of a run that is not dry says: besides the header
    copy the run has executed a beginning of the command list, in order;
    with exit code 0 all of the list, and with exit code 1 the list up to
    the command that the printed diagnostic names. *)
Theorem run_commands_and_exit_code (st st1 : state W) t rest CMDS :
  dry (ARGS st) = false ->
  resolved_tests st = t :: rest ->
  build_cmds t (resolved st) = (Done CMDS, st1) ->
  exists sync ran,
    commands_run (trace (snd (run st))) = commands_run (trace st) ++ sync ++ ran
    /\ (sync = []
        \/ sync = ["cp " +:+ (SCRIPTDIR +:+ "/svut_h.sv") +:+ " "
                         +:+ getcwd (world st)])
    /\ ((fst (run st) = 0 /\ ran = CMDS)
        \/ (fst (run st) = 1
            /\ exists pre c post,
                 CMDS = pre ++ c :: post
                 /\ ran = pre ++ [c]
                 /\ Print ("ERROR: Command failed: " +:+ c)
                      ∈ trace (snd (run st)))).
Proof.
  intros Hdry Hres Hbuild.
  destruct (real_run st st1 t rest CMDS Hdry Hres Hbuild)
    as (tag & added & r & s1 & Hrun & _ & Hexit & _ & Hsync).
  match type of Hrun with run_cmds CMDS ?s = _ =>
    destruct (run_cmds_in_order CMDS s)
      as (r' & s1' & ran & Hrun' & Htr & _ & Hcase) end.
  rewrite Hrun in Hrun'. injection Hrun' as <- <-.
  cbn [trace] in Htr.
  exists (commands_run added), ran. rewrite Hexit. cbn [fst snd trace].
  split; [|split; [exact Hsync|]].
  - rewrite commands_run_app, Htr, !commands_run_app.
    change (commands_run (Timer :: banner _ _ _)) with (@nil string).
    change (commands_run (Timer :: PrintElapsed :: banner _ _ _)) with (@nil string).
    rewrite !app_nil_r, <- !app_assoc. reflexivity.
  - destruct Hcase as [Hok|(-> & pre & c & post & HC & Hran & _ & Hlast)];
      [left; exact Hok|right].
    split; [reflexivity|]. exists pre, c, post.
    split; [exact HC|]. split; [exact Hran|].
    apply elem_of_app. left. apply last_Some_elem_of, Hlast.
Qed.



(** A simulator name that contains none of [iverilog], [icarus] and
    [verilator] in lower case: with a test to process the program prints
    the error and exits with code 1, whatever the test and also in a dry
    run; nothing is run and the header is not copied. *)
Theorem unsupported_simulator (st : state W) t rest :
  supported_simulator (simulator (ARGS st)) = false ->
  resolved_tests st = t :: rest ->
  fst (run st) = 1
  /\ world (snd (run st)) = world st
  /\ trace (snd (run st))
     = trace st ++ [Print "ERROR: Simulator not supported. Icarus is the only option"].
Proof.
  intros Hsim Hres.
  assert (simulator (ARGS (resolved st)) = simulator (ARGS st)) as Hsame
    by (unfold resolved; destruct (test (ARGS st)); reflexivity).
  unfold supported_simulator in Hsim.
  apply orb_false_iff in Hsim as [Hic Hver].
  assert (svut_main st
          = (Exit 1,
             mkState (set_simulator (Py.lower (simulator (ARGS (resolved st))))
                                    (ARGS (resolved st)))
                     (world (resolved st))
                     (trace (resolved st)
                        ++ [Print "ERROR: Simulator not supported. Icarus is the only option"])))
    as Hrun.
  { rewrite (svut_main_first t rest st Hres). unfold iteration, bind at 1.
    rewrite build_cmds_spec. cbv zeta. rewrite Hsame, Hic, Hver. reflexivity. }
  unfold run. rewrite Hrun. cbn [fst snd world trace].
  rewrite world_resolved, trace_resolved. auto.
Qed.

(** No test to process: the program exits with code 0 and has printed
    and run nothing, whatever the simulator name and the other options. *)
Theorem no_tests_no_run (st : state W) :
  resolved_tests st = [] ->
  fst (run st) = 0
  /\ world (snd (run st)) = world st
  /\ trace (snd (run st)) = trace st.
Proof.
  intros Hres. unfold run. rewrite (svut_main_none st Hres).
  cbn [fst snd]. rewrite world_resolved, trace_resolved. auto.
Qed.

(** Discovery finds nothing exactly when no regular file of the
    directory matches a prefix or a suffix. *)
Theorem find_unit_tests_nil (w : W) :
  find_unit_tests w = []
  <-> forall f, f ∈ listdir w -> isfile w f = true ->
        (forall p, p ∈ supported_prefix -> Py.startswith f p = false)
        /\ (forall s, s ∈ supported_suffix -> Py.endswith f s = false).
Proof.
  split.
  - intros Hnil f Hdir Hfile.
    assert (f ∉ find_unit_tests w) as Hnot by (rewrite Hnil; apply not_elem_of_nil).
    rewrite elem_of_find_unit_tests in Hnot.
    split; [intros p Hp; destruct (Py.startswith f p) eqn:E
           |intros s Hs; destruct (Py.endswith f s) eqn:E]; try reflexivity;
      exfalso; apply Hnot; eauto 8.
  - intros Hnone. destruct (find_unit_tests w) as [|f l] eqn:E; [reflexivity|].
    assert (f ∈ find_unit_tests w) as Hin by (rewrite E; apply list_elem_of_here).
    apply elem_of_find_unit_tests in Hin as (Hdir & Hfile & Hm).
    destruct (Hnone f Hdir Hfile) as [Hp Hs].
    destruct Hm as [(p & Hin & Hm)|(s & Hin & Hm)];
      [rewrite (Hp p Hin) in Hm|rewrite (Hs s Hin) in Hm]; discriminate.
Qed.

Lemma resolved_with_simulator sim (st : state W) :
  resolved (with_simulator sim st) = with_simulator sim (resolved st).
Proof.
  unfold resolved, with_simulator. cbn [ARGS world trace test set_simulator].
  destruct (test (ARGS st)); reflexivity.
Qed.

Lemma build_cmds_with_simulator sim t (st : state W) :
  Py.lower sim = Py.lower (simulator (ARGS st)) ->
  build_cmds t (with_simulator sim st) = build_cmds t st.
Proof.
  intros Hlow. rewrite !build_cmds_spec. cbv zeta.
  unfold with_simulator. cbn [ARGS world trace simulator set_simulator].
  unfold selects_icarus. rewrite Hlow. reflexivity.
Qed.

(** The simulator name is read without regard to case: two command lines
    whose simulator names have the same lower-case form give the same exit
    code, the same output and the same world. *)
Theorem simulator_case_insensitive sim (st : state W) :
  Py.lower sim = Py.lower (simulator (ARGS st)) ->
  fst (run (with_simulator sim st)) = fst (run st)
  /\ world (snd (run (with_simulator sim st))) = world (snd (run st))
  /\ trace (snd (run (with_simulator sim st))) = trace (snd (run st)).
Proof.
  intros Hlow.
  assert (resolved_tests (with_simulator sim st) = resolved_tests st) as Hres
    by reflexivity.
  destruct (resolved_tests st) as [|t rest] eqn:Hl.
  - unfold run. rewrite (svut_main_none _ Hres), (svut_main_none _ Hl).
    rewrite resolved_with_simulator. auto.
  - assert (svut_main (with_simulator sim st) = svut_main st) as Heq.
    { rewrite (svut_main_first t rest _ Hres), (svut_main_first t rest _ Hl).
      rewrite resolved_with_simulator. unfold iteration, bind at 1 3.
      rewrite build_cmds_with_simulator; [reflexivity|].
      rewrite Hlow. unfold resolved. destruct (test (ARGS st)); reflexivity. }
    unfold run. rewrite Heq. auto.
Qed.

End WholeRun.

(** ** More concrete runs *)

Section MoreRuns.

Lemma supported_extension_iff_witness :
  unsupported_extension "tb_a.sv" = false.
Proof.
  apply (proj2 (supported_extension_iff "tb_a.sv")).
  right. exists "tb_a". reflexivity.
Defined.

Lemma suffix_match_has_supported_extension_witness :
  unsupported_extension "adder_tb.v" = false.
Proof.
  apply (proj1 suffix_match_has_supported_extension "adder_tb.v" "_tb.v").
  - apply list_elem_of_In. vm_compute. tauto.
  - reflexivity.
Defined.

(** In a directory without [files.f] the default dot file adds nothing. *)
Lemma add_dotfiles_closed_witness :
  @add_dotfiles _ adder_platform [] default_args "iverilog " = "iverilog ".
Proof.
  apply (proj2 (@add_dotfiles_closed _ adder_platform [] default_args "iverilog ")).
  repeat constructor.
Defined.

Lemma create_iverilog_closed_witness :
  @create_iverilog _ no_test_platform
     (mkArgs (Tests ["tb_a.sv"]) ["files.f"; "extra.f"] "icarus" "sim_main.cpp"
             "W=8;;DEBUG" "-M. -mMyVPI" false false ["rtl"; "inc"])
     "tb_a.sv" (start default_args)
  = (Done ["rm -f icarus.out";
           "iverilog -g2012 -Wall -o icarus.out -DW=8 -DDEBUG -f files.f  -I rtl inc tb_a.sv ";
           "vvp -M. -mMyVPI icarus.out "], start default_args).
Proof.
  exact (@create_iverilog_closed _ no_test_platform
           (mkArgs (Tests ["tb_a.sv"]) ["files.f"; "extra.f"] "icarus" "sim_main.cpp"
                   "W=8;;DEBUG" "-M. -mMyVPI" false false ["rtl"; "inc"])
           "tb_a.sv" (start default_args) eq_refl).
Defined.

Lemma create_verilator_closed_witness :
  @create_verilator _ no_test_platform
     (mkArgs (Tests ["tb_a.sv"]) ["files.f"; "extra.f"] "verilator" "main.cpp"
             "W=8;;DEBUG" "" false false ["rtl"; "inc"])
     "tb_a.sv" (start default_args)
  = (Done ["rm -fr build";
           "verilator -Wall --trace --Mdir build +1800-2017ext+sv +1800-2005ext+v -Wno-STMTDLY -Wno-UNUSED -Wno-UNDRIVEN -Wno-PINCONNECTEMPTY -Wpedantic -Wno-VARHIDDEN -Wno-lint -DW=8 -DDEBUG -f files.f  +incdir+rtl +incdir+inc -cc --exe --build -j --top-module tb_a tb_a.sv main.cpp";
           "make -j -C build -f Vtb_a.mk Vtb_a";
           "build/Vtb_a"], start default_args).
Proof.
  exact (@create_verilator_closed _ no_test_platform
           (mkArgs (Tests ["tb_a.sv"]) ["files.f"; "extra.f"] "verilator" "main.cpp"
                   "W=8;;DEBUG" "" false false ["rtl"; "inc"])
           "tb_a.sv" (start default_args) eq_refl).
Defined.

(** The run whose simulation fails: what was run, and the exit code. *)
Lemma run_commands_and_exit_code_witness :
  exists sync ran,
    commands_run (trace (snd (@run _ failing_run_platform (start two_tests_args))))
    = commands_run [] ++ sync ++ ran
    /\ (sync = []
        \/ sync = ["cp " +:+ ("/opt/svut" +:+ "/svut_h.sv") +:+ " " +:+ "/work"])
    /\ ((fst (@run _ failing_run_platform (start two_tests_args)) = 0
         /\ ran = ["rm -f icarus.out";
                   "iverilog -g2012 -Wall -o icarus.out tb_a.v ";
                   "vvp icarus.out "])
        \/ (fst (@run _ failing_run_platform (start two_tests_args)) = 1
            /\ exists pre c post,
                 ["rm -f icarus.out";
                  "iverilog -g2012 -Wall -o icarus.out tb_a.v ";
                  "vvp icarus.out "] = pre ++ c :: post
                 /\ ran = pre ++ [c]
                 /\ Print ("ERROR: Command failed: " +:+ c)
                      ∈ trace (snd (@run _ failing_run_platform
                                      (start two_tests_args))))).
Proof.
  apply (@run_commands_and_exit_code _ failing_run_platform
           (start two_tests_args) (start two_tests_args) "tb_a.v" ["tb_b.v"]);
    vm_compute; reflexivity.
Defined.

Lemma real_run_witness :
  exists tag added r s1,
    @run_cmds _ failing_run_platform
      ["rm -f icarus.out"; "iverilog -g2012 -Wall -o icarus.out tb_a.v ";
       "vvp icarus.out "]
      (mkState two_tests_args
         (world (snd (@sync_header _ failing_run_platform (start two_tests_args))))
         ([] ++ added
             ++ Timer :: banner "Start" tag
                  (@strftime_now _ failing_run_platform
                     (world (snd (@sync_header _ failing_run_platform
                                    (start two_tests_args)))))))
    = (Done r, s1)
    /\ (r = 0 \/ r = 1)
    /\ @run _ failing_run_platform (start two_tests_args)
       = (r, mkState (ARGS s1) (world s1)
                     (trace s1 ++ Timer :: PrintElapsed
                        :: banner "Stop" tag
                             (@strftime_now _ failing_run_platform (world s1))))
    /\ (Timer ∉ added)
    /\ (commands_run added = []
        \/ commands_run added
           = ["cp " +:+ ("/opt/svut" +:+ "/svut_h.sv") +:+ " " +:+ "/work"]).
Proof.
  apply (@real_run _ failing_run_platform
           (start two_tests_args) (start two_tests_args) "tb_a.v" ["tb_b.v"]);
    vm_compute; reflexivity.
Defined.

Lemma unsupported_simulator_witness :
  fst (@run _ adder_platform
         (start (mkArgs (Tests ["tb_adder.sv"]) ["files.f"] "ModelSim"
                        "sim_main.cpp" "" "" false true []))) = 1.
Proof.
  apply (@unsupported_simulator _ adder_platform
           (start (mkArgs (Tests ["tb_adder.sv"]) ["files.f"] "ModelSim"
                          "sim_main.cpp" "" "" false true []))
           "tb_adder.sv" []);
    reflexivity.
Defined.

(** The default command line in a directory without tests, with a
    simulator that is not supported. *)
Lemma no_tests_no_run_witness :
  fst (@run _ no_test_platform
         (start (mkArgs AllTests ["files.f"] "ModelSim" "sim_main.cpp"
                        "" "" false false []))) = 0.
Proof.
  apply (@no_tests_no_run _ no_test_platform
           (start (mkArgs AllTests ["files.f"] "ModelSim" "sim_main.cpp"
                          "" "" false false []))).
  vm_compute. reflexivity.
Defined.

Lemma find_unit_tests_nil_witness :
  @find_unit_tests _ no_test_platform [] = [].
Proof.
  apply (proj2 (@find_unit_tests_nil _ no_test_platform [])).
  intros f Hdir Hfile. apply list_elem_of_In in Hdir. simpl in Hdir.
  destruct Hdir as [<-|[<-|[<-|[]]]]; try discriminate Hfile;
    (split; intros x Hx; apply list_elem_of_In in Hx; simpl in Hx;
     repeat (destruct Hx as [<-|Hx]; [reflexivity|]); destruct Hx).
Defined.

Lemma simulator_case_insensitive_witness :
  fst (@run _ failing_run_platform (with_simulator "ICARUS" (start two_tests_args)))
  = fst (@run _ failing_run_platform (start two_tests_args)).
Proof.
  apply (@simulator_case_insensitive _ failing_run_platform "ICARUS"
           (start two_tests_args)).
  reflexivity.
Defined.

End MoreRuns.
